(** * protocol/api: the HTTP control plane of the live server

    A shallow embedding of [protocol/api/api.go]: the shared-key gate
    [checkAuth], the routes registered by [Server.Serve], the relay
    handlers [handlePush] and [handlePull], the room-key handlers and the
    two statistics handlers [GetLiveStat] and [GetLiveStatics].

    Conventions.
    - A Go [string] is a [string] of bytes; [len] is [String.length],
      [+] is [+:+] and [fmt.Sprintf] with [%s]/[%v] verbs is spelled out
      as concatenation.
    - A Go [map[string]T] and a [sync.Map] with string keys are
      [gmap string T]; [Range] walks [map_to_list], whose order is as
      unspecified as the order of [Range].
    - Every handler builds one [Response] and sends it from a deferred
      [SendJson]; the embedding returns that response together with the
      server after the call and the calls made on collaborators.
    - [log] output is not modelled. *)

From Stdlib Require Import ZArith Ascii String.
From stdpp Require Import base option strings list gmap fin_maps.

Local Open Scope string_scope.
Local Open Scope Z_scope.

(** ** net/http, as far as the handlers use it *)
Module http.

Definition toUpper (c : ascii) : ascii :=
  let n := nat_of_ascii c in
  if ((97 <=? n) && (n <=? 122))%nat then ascii_of_nat (n - 32) else c.

Definition toLower (c : ascii) : ascii :=
  let n := nat_of_ascii c in
  if ((65 <=? n) && (n <=? 90))%nat then ascii_of_nat (n + 32) else c.

(** [textproto.CanonicalMIMEHeaderKey] on a key made of token bytes:
    the first letter and every letter after a hyphen in upper case, the
    others in lower case. *)
Fixpoint canonical (upper : bool) (s : string) : string :=
  match s with
  | EmptyString => EmptyString
  | String c s' =>
      String (if upper then toUpper c else toLower c)
             (canonical (Ascii.eqb c "-"%char) s')
  end.

Definition CanonicalMIMEHeaderKey (s : string) : string := canonical true s.

(** [url.Values.Get]: the first value of the key, or the empty string. *)
Definition Values_Get (v : gmap string (list string)) (key : string) : string :=
  match v !! key with
  | Some (x :: _) => x
  | _ => ""
  end.

(** [Header] is keyed by canonical names. [ParseForm] is the result of
    [req.ParseForm()] ([None] for a nil error) and [Form] the values it
    left in [req.Form]. *)
Record Request := {
  Header : gmap string (list string);
  ParseForm : option string;
  Form : gmap string (list string);
}.

Definition Header_Get (h : gmap string (list string)) (key : string) : string :=
  Values_Get h (CanonicalMIMEHeaderKey key).

Definition Form_Get (r : Request) (key : string) : string :=
  Values_Get (Form r) key.

End http.
Export http.

(** ** package rtmp: what the statistics handlers read *)
Module rtmp.

(** [StaticsBW]: [StreamId] is a [uint32], the counters are [uint64];
    the handlers only copy them. *)
Record StaticsBW := {
  StreamId : Z;
  VideoDatainBytes : Z;
  VideoSpeedInBytesperMS : Z;
  AudioDatainBytes : Z;
  AudioSpeedInBytesperMS : Z;
}.

(** [av.Info], of which only [URL] is read. *)
Record Info := { URL : string }.

Record VirReader := { VirReader_Info : Info; ReadBWInfo : StaticsBW }.
Record VirWriter := { VirWriter_Info : Info; WriteBWInfo : StaticsBW }.

(** An [av.ReadCloser] interface value: nil, a non-nil [*VirReader], or
    a value of some other concrete type. [WriteCloser] likewise. *)
Inductive ReadCloser :=
| ReaderNil
| ReaderVir (v : VirReader)
| ReaderOther.

Inductive WriteCloser :=
| WriterNil
| WriterVir (v : VirWriter)
| WriterOther.

Record PackWriterCloser := { GetWriter : WriteCloser }.

(** A value of the writer set [ws] of a stream, a [sync.Map] of
    [interface{}]: a [*PackWriterCloser] or anything else. *)
Inductive WsValue :=
| WsPackWriterCloser (pw : PackWriterCloser)
| WsOther.

Record Stream := {
  GetReader : ReadCloser;
  GetWs : gmap string WsValue;
}.

(** Modelled from the spec: the stream registry of [RtmpStream], which
    is declared outside this package -- "a stream-handle provider
    yielding, by key, an object exposing get current reader and get
    attached writer set". [GetStreams] is the registry and [GetStream]
    the lookup of one key in it. *)
Record RtmpStream := { GetStreams : gmap string Stream }.

Definition GetStream (rs : RtmpStream) (key : string) : option Stream :=
  GetStreams rs !! key.

End rtmp.
Export rtmp.

(** ** package rtmprelay *)
Module rtmprelay.

(** Modelled from the spec: the relay worker, declared outside this
    package -- "a relay-worker factory accepting (localURL, remoteURL)
    and exposing start/stop", whose first URL is the source the relay
    plays and whose second is the target it publishes to. A relay handle
    is identified with the two URLs it was built from. *)
Record RtmpRelay := NewRtmpRelay { PlayUrl : string; PublishUrl : string }.

End rtmprelay.
Export rtmprelay.

(** ** package api *)

(** An [av.Handler] interface value held by the server: nil, a
    [*rtmp.RtmpStream] (possibly a nil pointer), or another type. *)
Inductive Handler :=
| HandlerNil
| HandlerRtmpStream (p : option RtmpStream)
| HandlerOther.

Record Server := {
  handler : Handler;
  session : gmap string RtmpRelay;
  rtmpAddr : string;
}.

Definition NewServer (h : Handler) (rtmpAddr : string) : Server :=
  {| handler := h; session := ∅; rtmpAddr := rtmpAddr |}.

Record stream := {
  Key : string;
  Url : string;
  stream_StreamId : Z;
  VideoTotalBytes : Z;
  VideoSpeed : Z;
  AudioTotalBytes : Z;
  AudioSpeed : Z;
}.

Record streams := {
  Publishers : list stream;
  Players : list stream;
}.

(** The [interface{}] payloads the handlers store in [Response.Data]. *)
Inductive Payload :=
| Nil
| Str (s : string)
| Stat (m : stream)
| Stats (m : streams).

Record Response := { Status : Z; Data : Payload }.

(** Calls on the collaborators of the package, in program order. *)
Inductive Call :=
| RelayStart (r : RtmpRelay)
| RelayStop (r : RtmpRelay)
| SetKey (room : string)
| GetKey (room : string)
| DeleteChannel (room : string)
| TransStop (key : string)
| CloseAndComplete (key : string).

(** What the collaborators answer: [Start] is [RtmpRelay.Start] ([None]
    for a nil error, [Some] of the error text otherwise); the [RoomKeys_]
    fields are [configure.RoomKeys]; [Config_jwt_secret] and
    [Config_jwt_algorithm] are the two strings read from
    [configure.Config]; [jwt_GetSigningMethod] is the lookup of a signing
    method by name and [jwt_CheckJWT secret method r] the token check of
    the bearer-token middleware on [r] ([Some] of the error text when it
    fails). *)
Record Env := {
  Start : RtmpRelay -> option string;
  RoomKeys_SetKey : string -> string * option string;
  RoomKeys_GetKey : string -> string * option string;
  RoomKeys_DeleteChannel : string -> bool;
  Config_jwt_secret : string;
  Config_jwt_algorithm : string;
  jwt_GetSigningMethod : string -> option string;
  jwt_CheckJWT : string -> string -> Request -> option string;
}.

(** The response a request got: the one sent by [SendJson], or none when
    the handler panicked. *)
Inductive Reply :=
| Sent (res : Response)
| Panic.

Record Run := {
  reply : Reply;
  after : Server;
  calls : list Call;
}.

Definition respond (status : Z) (data : Payload) (server : Server)
    (cs : list Call) : Run :=
  {| reply := Sent {| Status := status; Data := data |};
     after := server; calls := cs |}.

Definition setSession (server : Server) (m : gmap string RtmpRelay) : Server :=
  {| handler := handler server; session := m; rtmpAddr := rtmpAddr server |}.

Definition handlePull (env : Env) (server : Server) (req : Request) : Run :=
  match ParseForm req with
  | Some _ =>
      respond 400
        (Str "url: /control/pull?&oper=start&app=live&name=123456&url=rtmp://192.168.16.136/live/123456")
        server []
  | None =>
      let oper := Form_Get req "oper" in
      let app := Form_Get req "app" in
      let name := Form_Get req "name" in
      let url := Form_Get req "url" in
      if ((String.length app <=? 0) || (String.length name <=? 0)
          || (String.length url <=? 0))%nat
      then respond 400 (Str "control push parameter error, please check them.")
             server []
      else
        let remoteurl := "rtmp://127.0.0.1" +:+ rtmpAddr server +:+ "/" +:+ app +:+ "/" +:+ name in
        let localurl := url in
        let keyString := "pull:" +:+ app +:+ "/" +:+ name in
        if String.eqb oper "stop" then
          match session server !! keyString with
          | None =>
              respond 400
                (Str ("session key[" +:+ keyString +:+ "] not exist, please check it again."))
                server []
          | Some pullRtmprelay =>
              respond 400
                (Str ("<h1>push url stop " +:+ url +:+ " ok</h1></br>"))
                (setSession server (delete keyString (session server)))
                [RelayStop pullRtmprelay]
          end
        else
          let pullRtmprelay := NewRtmpRelay localurl remoteurl in
          match Start env pullRtmprelay with
          | Some err =>
              respond 400 (Str ("push error=" +:+ err)) server
                [RelayStart pullRtmprelay]
          | None =>
              respond 400
                (Str ("<h1>push url start " +:+ url +:+ " ok</h1></br>"))
                (setSession server (<[keyString := pullRtmprelay]> (session server)))
                [RelayStart pullRtmprelay]
          end
  end.

Definition handlePush (env : Env) (server : Server) (req : Request) : Run :=
  match ParseForm req with
  | Some _ =>
      respond 200
        (Str "url: /control/push?&oper=start&app=live&name=123456&url=rtmp://192.168.16.136/live/123456")
        server []
  | None =>
      let oper := Form_Get req "oper" in
      let app := Form_Get req "app" in
      let name := Form_Get req "name" in
      let url := Form_Get req "url" in
      if ((String.length app <=? 0) || (String.length name <=? 0)
          || (String.length url <=? 0))%nat
      then respond 200 (Str "control push parameter error, please check them.")
             server []
      else
        let localurl := "rtmp://127.0.0.1" +:+ rtmpAddr server +:+ "/" +:+ app +:+ "/" +:+ name in
        let remoteurl := url in
        let keyString := "push:" +:+ app +:+ "/" +:+ name in
        if String.eqb oper "stop" then
          match session server !! keyString with
          | None =>
              respond 200
                (Str ("<h1>session key[" +:+ keyString +:+ "] not exist, please check it again.</h1>"))
                server []
          | Some pushRtmprelay =>
              respond 200
                (Str ("<h1>push url stop " +:+ url +:+ " ok</h1></br>"))
                (setSession server (delete keyString (session server)))
                [RelayStop pushRtmprelay]
          end
        else
          let pushRtmprelay := NewRtmpRelay localurl remoteurl in
          match Start env pushRtmprelay with
          | Some err =>
              respond 200 (Str ("push error=" +:+ err)) server
                [RelayStart pushRtmprelay]
          | None =>
              respond 200
                (Str ("<h1>push url start " +:+ url +:+ " ok</h1></br>"))
                (setSession server (<[keyString := pushRtmprelay]> (session server)))
                [RelayStart pushRtmprelay]
          end
  end.

(** *** The shared-key gate *)

(** [checkAuth]: [Some res] when the header differs from the key, the
    call sent [res] and returned [true]; [None] when it sent nothing and
    returned [false]. *)
Definition checkAuth (expectedKey : string) (r : Request) : option Response :=
  if negb (String.eqb (Header_Get (Header r) "authorization") expectedKey)
  then Some {| Status := 401; Data := Str "Unauthorized" |}
  else None.

(** *** Room-key handlers *)

Definition handleReset (env : Env) (server : Server) (r : Request) : Run :=
  match ParseForm r with
  | Some _ => respond 400 (Str "url: /control/reset?room=<ROOM_NAME>") server []
  | None =>
      let room := Form_Get r "room" in
      if (String.length room =? 0)%nat
      then respond 400 (Str "url: /control/reset?room=<ROOM_NAME>") server []
      else
        match RoomKeys_SetKey env room with
        | (_, Some err) => respond 400 (Str err) server [SetKey room]
        | (msg, None) => respond 200 (Str msg) server [SetKey room]
        end
  end.

Definition handleGet (env : Env) (server : Server) (r : Request) : Run :=
  match ParseForm r with
  | Some _ => respond 400 (Str "url: /control/get?room=<ROOM_NAME>") server []
  | None =>
      let room := Form_Get r "room" in
      if (String.length room =? 0)%nat
      then respond 400 (Str "url: /control/get?room=<ROOM_NAME>") server []
      else
        match RoomKeys_GetKey env room with
        | (_, Some err) => respond 400 (Str err) server [GetKey room]
        | (msg, None) => respond 200 (Str msg) server [GetKey room]
        end
  end.

(** The unchecked assertion [server.handler.( *rtmp.RtmpStream)] panics on
    a handler of another type and on a nil interface; the deferred
    [SendJson] is then not counted as a reply. [TransStop] and
    [CloseAndComplete] act on the stream, which the rtmp package owns:
    they are recorded as calls. *)
Definition handleDelete (env : Env) (server : Server) (r : Request) : Run :=
  match ParseForm r with
  | Some _ => respond 400 (Str "url: /control/delete?room=<ROOM_NAME>") server []
  | None =>
      let room := Form_Get r "room" in
      if (String.length room =? 0)%nat
      then respond 400 (Str "url: /control/delete?room=<ROOM_NAME>") server []
      else
        match handler server with
        | HandlerRtmpStream None =>
            respond 500 (Str "Get rtmp stream information error") server []
        | HandlerRtmpStream (Some rtmpStream) =>
            let key := "live/" +:+ room in
            match GetStream rtmpStream key with
            | None => respond 404 (Str "No room was found") server []
            | Some s =>
                let cs := [TransStop key; CloseAndComplete key; DeleteChannel room] in
                if RoomKeys_DeleteChannel env room
                then respond 200 (Str "Ok") server cs
                else respond 404 (Str "room not found") server cs
            end
        | _ => {| reply := Panic; after := server; calls := [] |}
        end
  end.

(** *** Statistics handlers *)

Definition readerStat (key : string) (v : VirReader) : stream :=
  {| Key := key;
     Url := URL (VirReader_Info v);
     stream_StreamId := StreamId (ReadBWInfo v);
     VideoTotalBytes := VideoDatainBytes (ReadBWInfo v);
     VideoSpeed := VideoSpeedInBytesperMS (ReadBWInfo v);
     AudioTotalBytes := AudioDatainBytes (ReadBWInfo v);
     AudioSpeed := AudioSpeedInBytesperMS (ReadBWInfo v) |}.

Definition writerStat (key : string) (v : VirWriter) : stream :=
  {| Key := key;
     Url := URL (VirWriter_Info v);
     stream_StreamId := StreamId (WriteBWInfo v);
     VideoTotalBytes := VideoDatainBytes (WriteBWInfo v);
     VideoSpeed := VideoSpeedInBytesperMS (WriteBWInfo v);
     AudioTotalBytes := AudioDatainBytes (WriteBWInfo v);
     AudioSpeed := AudioSpeedInBytesperMS (WriteBWInfo v) |}.

Definition GetLiveStat (env : Env) (server : Server) (req : Request) : Run :=
  match handler server with
  | HandlerRtmpStream None =>
      respond 500 (Str "Get rtmp stream information error") server []
  | HandlerRtmpStream (Some rtmpStream) =>
      match ParseForm req with
      | Some _ => respond 500 (Str "Failed to parse form") server []
      | None =>
          let room := Form_Get req "room" in
          let key := "live/" +:+ room in
          match GetStream rtmpStream key with
          | None => respond 404 (Str "No room was found") server []
          | Some s =>
              match GetReader s with
              | ReaderNil => respond 500 (Str "This room has no readers") server []
              | ReaderVir v => respond 200 (Stat (readerStat key v)) server []
              | ReaderOther =>
                  respond 500
                    (Str "Reader returned by RTMP stream was not virtual reader.")
                    server []
              end
          end
      end
  | _ => {| reply := Panic; after := server; calls := [] |}
  end.

(** [sync.Map.Range] with a callback that always returns [true]: the
    callback is run on every entry, threading the captured variable. *)
Definition Range {V A : Type} (m : gmap string V) (f : string -> V -> A -> A)
    (acc : A) : A :=
  foldl (fun a kv => f (fst kv) (snd kv) a) acc (map_to_list m).

Definition appendPublisher (msgs : streams) (msg : stream) : streams :=
  {| Publishers := Publishers msgs ++ [msg]; Players := Players msgs |}.

Definition appendPlayer (msgs : streams) (msg : stream) : streams :=
  {| Publishers := Publishers msgs; Players := Players msgs ++ [msg] |}.

(** The callback of the first [Range]. Every value of the registry is a
    [*rtmp.Stream], so the checked assertion of the source succeeds. *)
Definition collectPublisher (key : string) (s : Stream) (msgs : streams) : streams :=
  match GetReader s with
  | ReaderNil => msgs
  | ReaderVir v => appendPublisher msgs (readerStat key v)
  | ReaderOther => msgs
  end.

(** The callback of the inner [Range] over the writer set of one stream. *)
Definition collectPlayer (key : string) (k : string) (v : WsValue)
    (msgs : streams) : streams :=
  match v with
  | WsPackWriterCloser pw =>
      match GetWriter pw with
      | WriterNil => msgs
      | WriterVir v => appendPlayer msgs (writerStat key v)
      | WriterOther => msgs
      end
  | WsOther => msgs
  end.

Definition collectPlayers (key : string) (s : Stream) (msgs : streams) : streams :=
  Range (GetWs s) (collectPlayer key) msgs.

Definition GetLiveStatics (env : Env) (server : Server) (req : Request) : Run :=
  match handler server with
  | HandlerRtmpStream None =>
      respond 500 (Str "Get rtmp stream information error") server []
  | HandlerRtmpStream (Some rtmpStream) =>
      let msgs := {| Publishers := []; Players := [] |} in
      let msgs := Range (GetStreams rtmpStream) collectPublisher msgs in
      let msgs := Range (GetStreams rtmpStream) collectPlayers msgs in
      respond 200 (Stats msgs) server []
  | _ => {| reply := Panic; after := server; calls := [] |}
  end.

(** *** Serve *)

(** The gated routes [Serve] registers on its mux. The static file route
    [/statics/] is not gated and is left out. *)
Inductive Route :=
| ControlPush
| ControlPull
| ControlGet
| ControlReset
| ControlDelete
| StatsLivestats
| StatsLivestat.

Definition pattern (route : Route) : string :=
  match route with
  | ControlPush => "/control/push"
  | ControlPull => "/control/pull"
  | ControlGet => "/control/get"
  | ControlReset => "/control/reset"
  | ControlDelete => "/control/delete"
  | StatsLivestats => "/stats/livestats"
  | StatsLivestat => "/stats/livestat"
  end.

Definition handlerBody (route : Route) : Env -> Server -> Request -> Run :=
  match route with
  | ControlPush => handlePush
  | ControlPull => handlePull
  | ControlGet => handleGet
  | ControlReset => handleReset
  | ControlDelete => handleDelete
  | StatsLivestats => GetLiveStatics
  | StatsLivestat => GetLiveStat
  end.

(** The closure registered for every route: the gate, then the body. *)
Definition gated (apiKey : string) (body : Env -> Server -> Request -> Run)
    (env : Env) (server : Server) (r : Request) : Run :=
  match checkAuth apiKey r with
  | Some res => {| reply := Sent res; after := server; calls := [] |}
  | None => body env server r
  end.

Definition mux (apiKey : string) (route : Route) : Env -> Server -> Request -> Run :=
  gated apiKey (handlerBody route).

Definition SigningMethodHS256 : string := "HS256".

(** [JWTMiddleware]: the handler itself when no [jwt.secret] is
    configured; otherwise the token check first, with the configured
    signing method or HS256, whose error is sent with status 403 and whose
    success hands the request on. *)
Definition JWTMiddleware (env : Env) (next : Server -> Request -> Run)
    (server : Server) (r : Request) : Run :=
  let isJWT := (0 <? String.length (Config_jwt_secret env))%nat in
  if negb isJWT then next server r
  else
    let algorithm :=
      if (0 <? String.length (Config_jwt_algorithm env))%nat
      then jwt_GetSigningMethod env (Config_jwt_algorithm env)
      else None in
    let algorithm :=
      match algorithm with
      | None => SigningMethodHS256
      | Some method => method
      end in
    match jwt_CheckJWT env (Config_jwt_secret env) algorithm r with
    | Some err => respond 403 (Str err) server []
    | None => next server r
    end.

(** One request on a gated route, as [Serve] answers it. *)
Definition Serve (apiKey : string) (env : Env) (route : Route) (server : Server)
    (r : Request) : Run :=
  JWTMiddleware env (mux apiKey route env) server r.

(** * Properties *)

(** ** Requests, sample data and the entries of a snapshot *)

(** [req] parsed without error and carries these four form values; a
    missing parameter reads as the empty string. *)
Definition hasParams (req : Request) (oper app name url : string) : Prop :=
  ParseForm req = None /\
  Form_Get req "oper" = oper /\
  Form_Get req "app" = app /\
  Form_Get req "name" = name /\
  Form_Get req "url" = url.

(** The request of [/control/push?oper=..&app=..&name=..&url=..], also
    used for [/control/pull]. *)
Definition controlRequest (oper app name url : string) : Request :=
  {| Header := ∅;
     ParseForm := None;
     Form := list_to_map
               [("oper", [oper]); ("app", [app]); ("name", [name]); ("url", [url])] |}.

Definition roomRequest (room : string) : Request :=
  {| Header := ∅; ParseForm := None; Form := list_to_map [("room", [room])] |}.

Definition withAuthorization (key : string) (r : Request) : Request :=
  {| Header := <["Authorization" := [key]]> (Header r);
     ParseForm := ParseForm r;
     Form := Form r |}.

(** Collaborators whose relay workers start, or fail with [err]. *)
Definition envStarting (start : RtmpRelay -> option string) : Env :=
  {| Start := start;
     RoomKeys_SetKey := fun _ => ("key", None);
     RoomKeys_GetKey := fun _ => ("key", None);
     RoomKeys_DeleteChannel := fun _ => true;
     Config_jwt_secret := "";
     Config_jwt_algorithm := "";
     jwt_GetSigningMethod := fun _ => None;
     jwt_CheckJWT := fun _ _ _ => None |}.

Definition envOk : Env := envStarting (fun _ => None).
Definition envFail : Env := envStarting (fun _ => Some "dial tcp: connection refused").

Definition server0 : Server := NewServer (HandlerRtmpStream (Some {| GetStreams := ∅ |})) ":1935".

Definition oldRelay : RtmpRelay :=
  NewRtmpRelay "rtmp://127.0.0.1:1935/live/room1" "rtmp://198.51.100.7/live/room1".

Definition serverWithPush : Server :=
  setSession server0 (<["push:live/room1" := oldRelay]> ∅).

Definition startRoom1 : Request :=
  controlRequest "start" "live" "room1" "rtmp://203.0.113.5/live/room1".

Definition stopRoom1 : Request :=
  controlRequest "stop" "live" "room1" "rtmp://203.0.113.5/live/room1".

Definition virReader1 : VirReader :=
  {| VirReader_Info := {| URL := "rtmp://127.0.0.1:1935/live/room1" |};
     ReadBWInfo := {| StreamId := 1; VideoDatainBytes := 4096;
                      VideoSpeedInBytesperMS := 12; AudioDatainBytes := 512;
                      AudioSpeedInBytesperMS := 2 |} |}.

Definition virWriter1 : VirWriter :=
  {| VirWriter_Info := {| URL := "rtmp://127.0.0.1:1935/live/room1" |};
     WriteBWInfo := {| StreamId := 1; VideoDatainBytes := 2048;
                       VideoSpeedInBytesperMS := 6; AudioDatainBytes := 256;
                       AudioSpeedInBytesperMS := 1 |} |}.

(** A registry with an instrumented room, whose writer set holds an
    instrumented writer, a writer of another type, a nil writer and a
    value that is no [PackWriterCloser]; a room read by another type of
    reader, with an instrumented writer; and a room without reader. *)
Definition rtmpStream1 : RtmpStream :=
  {| GetStreams :=
       list_to_map
         [("live/room1",
           {| GetReader := ReaderVir virReader1;
              GetWs := list_to_map
                         [("a", WsPackWriterCloser {| GetWriter := WriterVir virWriter1 |});
                          ("b", WsPackWriterCloser {| GetWriter := WriterOther |});
                          ("c", WsPackWriterCloser {| GetWriter := WriterNil |});
                          ("d", WsOther)] |});
          ("live/room2",
           {| GetReader := ReaderOther;
              GetWs := list_to_map
                         [("e", WsPackWriterCloser {| GetWriter := WriterVir virWriter1 |})] |});
          ("live/room3", {| GetReader := ReaderNil; GetWs := ∅ |})] |}.

Definition statsServer : Server := NewServer (HandlerRtmpStream (Some rtmpStream1)) ":1935".

(** What one registry entry contributes to [publishers]. *)
Definition publisherOf (kv : string * Stream) : option stream :=
  match GetReader (snd kv) with
  | ReaderVir v => Some (readerStat (fst kv) v)
  | _ => None
  end.

(** What one value of the writer set of the stream [key] contributes to
    [players]. *)
Definition playerOf (key : string) (kv : string * WsValue) : option stream :=
  match snd kv with
  | WsPackWriterCloser pw =>
      match GetWriter pw with
      | WriterVir v => Some (writerStat key v)
      | _ => None
      end
  | WsOther => None
  end.

Definition playersOf (kv : string * Stream) : list stream :=
  omap (playerOf (fst kv)) (map_to_list (GetWs (snd kv))).

(** Requests answered one after the other by the same server, each with
    the answers the collaborators gave at that time. *)
Definition serveAll (apiKey : string) (server : Server)
    (reqs : list (Env * Route * Request)) : Server :=
  foldl (fun s x => after (Serve apiKey (fst (fst x)) (snd (fst x)) s (snd x)))
        server reqs.

(** The local URL of the endpoint [path], which is [<app>/<name>]. *)
Definition localOf (addr path : string) : string :=
  "rtmp://127.0.0.1" +:+ addr +:+ "/" +:+ path.

(** A registry entry agrees with its key: under ["push:<path>"] a relay
    that plays the local URL of [path], under ["pull:<path>"] a relay that
    publishes to it. *)
Definition keyed (addr key : string) (relay : RtmpRelay) : Prop :=
  (exists path, key = "push:" +:+ path /\ PlayUrl relay = localOf addr path) \/
  (exists path, key = "pull:" +:+ path /\ PublishUrl relay = localOf addr path).

Definition consistent (server : Server) : Prop :=
  forall key relay, session server !! key = Some relay ->
    keyed (rtmpAddr server) key relay.

(** The payload of a reply, if one was sent. *)
Definition sentData (run : Run) : option Payload :=
  match reply run with
  | Sent res => Some (Data res)
  | Panic => None
  end.

Lemma hasParams_controlRequest oper app name url :
  hasParams (controlRequest oper app name url) oper app name url.
Proof. repeat split. Qed.

Lemma len_nonempty (s : string) : s <> "" -> (String.length s <=? 0)%nat = false.
Proof. destruct s; [congruence | reflexivity]. Qed.

(** ** The start and stop paths of the relay handlers *)

Section RelayPaths.
Variables (env : Env) (server : Server) (req : Request).
Variables (oper app name url : string).
Hypothesis Hreq : hasParams req oper app name url.
Hypothesis Happ : app <> "".
Hypothesis Hname : name <> "".
Hypothesis Hurl : url <> "".

Lemma handlePush_start :
  oper <> "stop" ->
  handlePush env server req =
    let localurl := "rtmp://127.0.0.1" +:+ rtmpAddr server +:+ "/" +:+ app +:+ "/" +:+ name in
    let relay := NewRtmpRelay localurl url in
    match Start env relay with
    | Some err => respond 200 (Str ("push error=" +:+ err)) server [RelayStart relay]
    | None =>
        respond 200 (Str ("<h1>push url start " +:+ url +:+ " ok</h1></br>"))
          (setSession server (<["push:" +:+ app +:+ "/" +:+ name := relay]> (session server)))
          [RelayStart relay]
    end.
Proof.
  intros Hoper. destruct Hreq as (Hp & Ho & Ha & Hn & Hu).
  unfold handlePush. rewrite Hp, Ho, Ha, Hn, Hu.
  rewrite !len_nonempty by assumption. simpl.
  apply String.eqb_neq in Hoper. rewrite Hoper. reflexivity.
Qed.

Lemma handlePull_start :
  oper <> "stop" ->
  handlePull env server req =
    let localurl := "rtmp://127.0.0.1" +:+ rtmpAddr server +:+ "/" +:+ app +:+ "/" +:+ name in
    let relay := NewRtmpRelay url localurl in
    match Start env relay with
    | Some err => respond 400 (Str ("push error=" +:+ err)) server [RelayStart relay]
    | None =>
        respond 400 (Str ("<h1>push url start " +:+ url +:+ " ok</h1></br>"))
          (setSession server (<["pull:" +:+ app +:+ "/" +:+ name := relay]> (session server)))
          [RelayStart relay]
    end.
Proof.
  intros Hoper. destruct Hreq as (Hp & Ho & Ha & Hn & Hu).
  unfold handlePull. rewrite Hp, Ho, Ha, Hn, Hu.
  rewrite !len_nonempty by assumption. simpl.
  apply String.eqb_neq in Hoper. rewrite Hoper. reflexivity.
Qed.

Lemma handlePush_stop :
  oper = "stop" ->
  handlePush env server req =
    match session server !! ("push:" +:+ app +:+ "/" +:+ name) with
    | None =>
        respond 200
          (Str ("<h1>session key[" +:+ ("push:" +:+ app +:+ "/" +:+ name)
                +:+ "] not exist, please check it again.</h1>"))
          server []
    | Some relay =>
        respond 200 (Str ("<h1>push url stop " +:+ url +:+ " ok</h1></br>"))
          (setSession server (delete ("push:" +:+ app +:+ "/" +:+ name) (session server)))
          [RelayStop relay]
    end.
Proof.
  intros Hoper. destruct Hreq as (Hp & Ho & Ha & Hn & Hu).
  unfold handlePush. rewrite Hp, Ho, Ha, Hn, Hu.
  rewrite !len_nonempty by assumption. simpl.
  rewrite Hoper. reflexivity.
Qed.

Lemma handlePull_stop :
  oper = "stop" ->
  handlePull env server req =
    match session server !! ("pull:" +:+ app +:+ "/" +:+ name) with
    | None =>
        respond 400
          (Str ("session key[" +:+ ("pull:" +:+ app +:+ "/" +:+ name)
                +:+ "] not exist, please check it again."))
          server []
    | Some relay =>
        respond 400 (Str ("<h1>push url stop " +:+ url +:+ " ok</h1></br>"))
          (setSession server (delete ("pull:" +:+ app +:+ "/" +:+ name) (session server)))
          [RelayStop relay]
    end.
Proof.
  intros Hoper. destruct Hreq as (Hp & Ho & Ha & Hn & Hu).
  unfold handlePull. rewrite Hp, Ho, Ha, Hn, Hu.
  rewrite !len_nonempty by assumption. simpl.
  rewrite Hoper. reflexivity.
Qed.

End RelayPaths.



(** A push request with an empty [app] is answered with the parameter
    message, under status 200. *)
Lemma handlePush_missing_app env server req :
  ParseForm req = None -> Form_Get req "app" = "" ->
  handlePush env server req =
    respond 200 (Str "control push parameter error, please check them.") server [].
Proof. intros Hp Ha. unfold handlePush. rewrite Hp, Ha. reflexivity. Qed.

(** ** Duplicate start *)

(** C1, as stated, fails: a push start for the key ["push:live/room1"],
    already in the registry, is answered with the ordinary start
    confirmation and the stored relay handle is replaced. *)
Lemma duplicate_push_start_replaces_handle :
  session serverWithPush !! "push:live/room1" = Some oldRelay /\
  reply (handlePush envOk serverWithPush startRoom1) =
    Sent {| Status := 200;
            Data := Str "<h1>push url start rtmp://203.0.113.5/live/room1 ok</h1></br>" |} /\
  ~ (session (after (handlePush envOk serverWithPush startRoom1)) !! "push:live/room1"
     = session serverWithPush !! "push:live/room1").
Proof.
  split; [reflexivity | split; [reflexivity |]].
  vm_compute. discriminate.
Qed.

(** C1, amended: a start request (push or pull) whose session key already
    has an entry is handled like any other start. The handler builds and
    starts a new relay; when the worker starts, the start confirmation is
    returned and the entry of the key now holds the new relay, the old one
    not having been stopped; when the worker fails to start, the error
    message is returned and the registry is unchanged. *)
Theorem duplicate_start_replaces_entry :
  forall (env : Env) (server : Server) (req : Request)
    (oper app name url : string) (old : RtmpRelay),
    hasParams req oper app name url ->
    app <> "" -> name <> "" -> url <> "" -> oper <> "stop" ->
    let localurl := "rtmp://127.0.0.1" +:+ rtmpAddr server +:+ "/" +:+ app +:+ "/" +:+ name in
    let pushKey := "push:" +:+ app +:+ "/" +:+ name in
    let pullKey := "pull:" +:+ app +:+ "/" +:+ name in
    let pushRelay := NewRtmpRelay localurl url in
    let pullRelay := NewRtmpRelay url localurl in
    let pushed := handlePush env server req in
    let pulled := handlePull env server req in
    (session server !! pushKey = Some old ->
     calls pushed = [RelayStart pushRelay] /\
     match Start env pushRelay with
     | None =>
         reply pushed =
           Sent {| Status := 200;
                   Data := Str ("<h1>push url start " +:+ url +:+ " ok</h1></br>") |} /\
         session (after pushed) !! pushKey = Some pushRelay
     | Some err =>
         reply pushed = Sent {| Status := 200; Data := Str ("push error=" +:+ err) |} /\
         after pushed = server
     end) /\
    (session server !! pullKey = Some old ->
     calls pulled = [RelayStart pullRelay] /\
     match Start env pullRelay with
     | None =>
         reply pulled =
           Sent {| Status := 400;
                   Data := Str ("<h1>push url start " +:+ url +:+ " ok</h1></br>") |} /\
         session (after pulled) !! pullKey = Some pullRelay
     | Some err =>
         reply pulled = Sent {| Status := 400; Data := Str ("push error=" +:+ err) |} /\
         after pulled = server
     end).
Proof.
  intros env server req oper app name url old Hreq Happ Hname Hurl Hoper.
  cbv zeta. split; intros _.
  - rewrite (handlePush_start env server req oper app name url) by assumption.
    cbv zeta. destruct (Start env _) as [err|]; simpl.
    + auto.
    + rewrite lookup_insert_eq. auto.
  - rewrite (handlePull_start env server req oper app name url) by assumption.
    cbv zeta. destruct (Start env _) as [err|]; simpl.
    + auto.
    + rewrite lookup_insert_eq. auto.
Qed.

Lemma duplicate_start_replaces_entry_witness :
  calls (handlePush envOk serverWithPush startRoom1) =
    [RelayStart (NewRtmpRelay "rtmp://127.0.0.1:1935/live/room1"
                              "rtmp://203.0.113.5/live/room1")] /\
  reply (handlePush envOk serverWithPush startRoom1) =
    Sent {| Status := 200;
            Data := Str "<h1>push url start rtmp://203.0.113.5/live/room1 ok</h1></br>" |} /\
  session (after (handlePush envOk serverWithPush startRoom1)) !! "push:live/room1" =
    Some (NewRtmpRelay "rtmp://127.0.0.1:1935/live/room1" "rtmp://203.0.113.5/live/room1").
Proof.
  apply (duplicate_start_replaces_entry envOk serverWithPush startRoom1
           "start" "live" "room1" "rtmp://203.0.113.5/live/room1" oldRelay).
  - apply hasParams_controlRequest.
  - discriminate.
  - discriminate.
  - discriminate.
  - discriminate.
  - reflexivity.
Defined.

(** ** Status codes of the relay handlers *)

(** C2, at the failing inputs: a pull start with all parameters whose
    worker starts is answered with status 400, and a push request without
    [app] is answered with status 200 and a message that does not show the
    expected URL. *)
Theorem relay_status_at_failing_inputs :
  handlePull envOk server0 startRoom1 =
    {| reply :=
         Sent {| Status := 400;
                 Data := Str "<h1>push url start rtmp://203.0.113.5/live/room1 ok</h1></br>" |};
       after :=
         setSession server0
           (<["pull:live/room1" :=
                NewRtmpRelay "rtmp://203.0.113.5/live/room1"
                             "rtmp://127.0.0.1:1935/live/room1"]> ∅);
       calls := [RelayStart (NewRtmpRelay "rtmp://203.0.113.5/live/room1"
                                          "rtmp://127.0.0.1:1935/live/room1")] |} /\
  handlePush envOk server0
      (controlRequest "start" "" "room1" "rtmp://203.0.113.5/live/room1") =
    {| reply :=
         Sent {| Status := 200;
                 Data := Str "control push parameter error, please check them." |};
       after := server0;
       calls := [] |}.
Proof. split; reflexivity. Qed.

(** ** Start, stop, stop *)

(** C3. For non-empty [app] and [name], a push start whose worker starts,
    followed by a push stop of the same [(app, name)], leaves the registry
    without the key ["push:<app>/<name>"]; a second stop of that key is
    answered with the "session key not exist" message and changes
    nothing. *)
Theorem push_start_stop_stop :
  forall (env1 env2 env3 : Env) (server : Server) (start stop1 stop2 : Request)
    (oper app name url url1 url2 : string),
    app <> "" -> name <> "" -> url <> "" -> url1 <> "" -> url2 <> "" ->
    oper <> "stop" ->
    hasParams start oper app name url ->
    hasParams stop1 "stop" app name url1 ->
    hasParams stop2 "stop" app name url2 ->
    Start env1
      (NewRtmpRelay
         ("rtmp://127.0.0.1" +:+ rtmpAddr server +:+ "/" +:+ app +:+ "/" +:+ name) url)
      = None ->
    let key := "push:" +:+ app +:+ "/" +:+ name in
    let started := handlePush env1 server start in
    let stopped := handlePush env2 (after started) stop1 in
    let again := handlePush env3 (after stopped) stop2 in
    is_Some (session (after started) !! key) /\
    reply stopped =
      Sent {| Status := 200;
              Data := Str ("<h1>push url stop " +:+ url1 +:+ " ok</h1></br>") |} /\
    session (after stopped) !! key = None /\
    reply again =
      Sent {| Status := 200;
              Data := Str ("<h1>session key[" +:+ key
                           +:+ "] not exist, please check it again.</h1>") |} /\
    after again = after stopped /\
    calls again = [].
Proof.
  intros env1 env2 env3 server start stop1 stop2 oper app name url url1 url2
    Happ Hname Hurl Hurl1 Hurl2 Hoper Hstart Hstop1 Hstop2 Hok.
  cbv zeta.
  rewrite (handlePush_start env1 server start oper app name url) by assumption.
  cbv zeta. rewrite Hok. simpl.
  rewrite (handlePush_stop env2 _ stop1 "stop" app name url1) by (assumption || reflexivity).
  simpl. rewrite lookup_insert_eq. simpl.
  rewrite (handlePush_stop env3 _ stop2 "stop" app name url2) by (assumption || reflexivity).
  simpl. rewrite lookup_delete_eq. simpl.
  rewrite ?lookup_insert_eq, ?lookup_delete_eq.
  repeat split; eauto.
Qed.

Lemma push_start_stop_stop_witness :
  let started := handlePush envOk server0 startRoom1 in
  let stopped := handlePush envOk (after started) stopRoom1 in
  let again := handlePush envOk (after stopped) stopRoom1 in
  is_Some (session (after started) !! "push:live/room1") /\
  reply stopped =
    Sent {| Status := 200;
            Data := Str "<h1>push url stop rtmp://203.0.113.5/live/room1 ok</h1></br>" |} /\
  session (after stopped) !! "push:live/room1" = None /\
  reply again =
    Sent {| Status := 200;
            Data := Str "<h1>session key[push:live/room1] not exist, please check it again.</h1>" |} /\
  after again = after stopped /\
  calls again = [].
Proof.
  apply (push_start_stop_stop envOk envOk envOk server0 startRoom1 stopRoom1 stopRoom1
           "start" "live" "room1" "rtmp://203.0.113.5/live/room1"
           "rtmp://203.0.113.5/live/room1" "rtmp://203.0.113.5/live/room1").
  - discriminate.
  - discriminate.
  - discriminate.
  - discriminate.
  - discriminate.
  - discriminate.
  - apply hasParams_controlRequest.
  - apply hasParams_controlRequest.
  - apply hasParams_controlRequest.
  - reflexivity.
Defined.

(** ** Start: failure and success of the worker *)

(** C4. On a start request (push or pull): if [Start] of the relay worker
    returns an error, the handler answers with the error message and the
    server, its registry included, is unchanged; if [Start] succeeds, the
    handler answers with the confirmation string and the registry is the
    old one with the session key bound to the new relay. *)
Theorem start_inserts_only_on_success :
  forall (env : Env) (server : Server) (req : Request) (oper app name url : string),
    hasParams req oper app name url ->
    app <> "" -> name <> "" -> url <> "" -> oper <> "stop" ->
    let localurl := "rtmp://127.0.0.1" +:+ rtmpAddr server +:+ "/" +:+ app +:+ "/" +:+ name in
    let pushRelay := NewRtmpRelay localurl url in
    let pullRelay := NewRtmpRelay url localurl in
    let pushed := handlePush env server req in
    let pulled := handlePull env server req in
    (forall err, Start env pushRelay = Some err ->
       reply pushed = Sent {| Status := 200; Data := Str ("push error=" +:+ err) |} /\
       after pushed = server) /\
    (Start env pushRelay = None ->
       reply pushed =
         Sent {| Status := 200;
                 Data := Str ("<h1>push url start " +:+ url +:+ " ok</h1></br>") |} /\
       session (after pushed) =
         <["push:" +:+ app +:+ "/" +:+ name := pushRelay]> (session server)) /\
    (forall err, Start env pullRelay = Some err ->
       reply pulled = Sent {| Status := 400; Data := Str ("push error=" +:+ err) |} /\
       after pulled = server) /\
    (Start env pullRelay = None ->
       reply pulled =
         Sent {| Status := 400;
                 Data := Str ("<h1>push url start " +:+ url +:+ " ok</h1></br>") |} /\
       session (after pulled) =
         <["pull:" +:+ app +:+ "/" +:+ name := pullRelay]> (session server)).
Proof.
  intros env server req oper app name url Hreq Happ Hname Hurl Hoper.
  cbv zeta.
  rewrite (handlePush_start env server req oper app name url) by assumption.
  rewrite (handlePull_start env server req oper app name url) by assumption.
  cbv zeta.
  split; [| split; [| split]].
  - intros err Hs. rewrite Hs. split; reflexivity.
  - intros Hs. rewrite Hs. split; reflexivity.
  - intros err Hs. rewrite Hs. split; reflexivity.
  - intros Hs. rewrite Hs. split; reflexivity.
Qed.

Lemma start_inserts_only_on_success_witness :
  (reply (handlePush envFail server0 startRoom1) =
     Sent {| Status := 200; Data := Str "push error=dial tcp: connection refused" |} /\
   after (handlePush envFail server0 startRoom1) = server0) /\
  (reply (handlePull envOk server0 startRoom1) =
     Sent {| Status := 400;
             Data := Str "<h1>push url start rtmp://203.0.113.5/live/room1 ok</h1></br>" |} /\
   session (after (handlePull envOk server0 startRoom1)) =
     <["pull:live/room1" :=
         NewRtmpRelay "rtmp://203.0.113.5/live/room1" "rtmp://127.0.0.1:1935/live/room1"]> ∅).
Proof.
  split.
  - apply (start_inserts_only_on_success envFail server0 startRoom1
             "start" "live" "room1" "rtmp://203.0.113.5/live/room1"
             (hasParams_controlRequest _ _ _ _)); try discriminate.
    reflexivity.
  - apply (start_inserts_only_on_success envOk server0 startRoom1
             "start" "live" "room1" "rtmp://203.0.113.5/live/room1"
             (hasParams_controlRequest _ _ _ _)); try discriminate.
    reflexivity.
Defined.

(** ** The URLs of the relay *)

(** C8. On a start request with non-empty [app], [name] and [url], the
    local URL is ["rtmp://127.0.0.1" + rtmpAddr + "/" + app + "/" + name];
    the relay that push creates and starts has the local URL as source and
    the request's [url] as target, the relay that pull creates and starts
    has the request's [url] as source and the local URL as target. *)
Theorem start_relay_urls :
  forall (env : Env) (server : Server) (req : Request) (oper app name url : string),
    hasParams req oper app name url ->
    app <> "" -> name <> "" -> url <> "" -> oper <> "stop" ->
    let localurl := "rtmp://127.0.0.1" +:+ rtmpAddr server +:+ "/" +:+ app +:+ "/" +:+ name in
    calls (handlePush env server req) =
      [RelayStart {| PlayUrl := localurl; PublishUrl := url |}] /\
    calls (handlePull env server req) =
      [RelayStart {| PlayUrl := url; PublishUrl := localurl |}].
Proof.
  intros env server req oper app name url Hreq Happ Hname Hurl Hoper.
  cbv zeta.
  rewrite (handlePush_start env server req oper app name url) by assumption.
  rewrite (handlePull_start env server req oper app name url) by assumption.
  cbv zeta.
  split; destruct (Start env _); reflexivity.
Qed.

Lemma start_relay_urls_witness :
  calls (handlePush envOk server0 startRoom1) =
    [RelayStart {| PlayUrl := "rtmp://127.0.0.1:1935/live/room1";
                   PublishUrl := "rtmp://203.0.113.5/live/room1" |}] /\
  calls (handlePull envFail server0 startRoom1) =
    [RelayStart {| PlayUrl := "rtmp://203.0.113.5/live/room1";
                   PublishUrl := "rtmp://127.0.0.1:1935/live/room1" |}].
Proof.
  split.
  - apply (start_relay_urls envOk server0 startRoom1
             "start" "live" "room1" "rtmp://203.0.113.5/live/room1"
             (hasParams_controlRequest _ _ _ _)); discriminate.
  - apply (start_relay_urls envFail server0 startRoom1
             "start" "live" "room1" "rtmp://203.0.113.5/live/room1"
             (hasParams_controlRequest _ _ _ _)); discriminate.
Defined.

(** ** The operation parameter *)

(** C9. On a push or pull request with non-empty [app], [name] and [url],
    every [oper] other than ["stop"] takes the start path: a relay is
    built and started, and is bound to the session key when the worker
    starts. The value of [oper] is not looked at any further: two such
    requests that differ in [oper] only are handled alike. *)
Theorem oper_other_than_stop_starts :
  forall (env : Env) (server : Server) (req req' : Request)
    (oper oper' app name url : string),
    hasParams req oper app name url ->
    hasParams req' oper' app name url ->
    app <> "" -> name <> "" -> url <> "" ->
    oper <> "stop" -> oper' <> "stop" ->
    let localurl := "rtmp://127.0.0.1" +:+ rtmpAddr server +:+ "/" +:+ app +:+ "/" +:+ name in
    let pushRelay := NewRtmpRelay localurl url in
    let pullRelay := NewRtmpRelay url localurl in
    (calls (handlePush env server req) = [RelayStart pushRelay] /\
     (Start env pushRelay = None ->
      session (after (handlePush env server req)) !! ("push:" +:+ app +:+ "/" +:+ name)
        = Some pushRelay) /\
     handlePush env server req' = handlePush env server req) /\
    (calls (handlePull env server req) = [RelayStart pullRelay] /\
     (Start env pullRelay = None ->
      session (after (handlePull env server req)) !! ("pull:" +:+ app +:+ "/" +:+ name)
        = Some pullRelay) /\
     handlePull env server req' = handlePull env server req).
Proof.
  intros env server req req' oper oper' app name url Hreq Hreq'
    Happ Hname Hurl Hoper Hoper'.
  cbv zeta.
  rewrite (handlePush_start env server req oper app name url) by assumption.
  rewrite (handlePush_start env server req' oper' app name url) by assumption.
  rewrite (handlePull_start env server req oper app name url) by assumption.
  rewrite (handlePull_start env server req' oper' app name url) by assumption.
  cbv zeta.
  split; (split; [destruct (Start env _); reflexivity | split; [| reflexivity]]).
  - intros Hs. rewrite Hs. simpl. apply lookup_insert_eq.
  - intros Hs. rewrite Hs. simpl. apply lookup_insert_eq.
Qed.

Lemma oper_other_than_stop_starts_witness :
  let missing := {| Header := ∅; ParseForm := None;
                    Form := list_to_map [("app", ["live"]); ("name", ["room1"]);
                                         ("url", ["rtmp://203.0.113.5/live/room1"])] |} in
  let bogus := controlRequest "restart" "live" "room1" "rtmp://203.0.113.5/live/room1" in
  calls (handlePush envOk server0 missing) =
    [RelayStart (NewRtmpRelay "rtmp://127.0.0.1:1935/live/room1"
                              "rtmp://203.0.113.5/live/room1")] /\
  (Start envOk (NewRtmpRelay "rtmp://127.0.0.1:1935/live/room1"
                             "rtmp://203.0.113.5/live/room1") = None ->
   session (after (handlePush envOk server0 missing)) !! "push:live/room1" =
     Some (NewRtmpRelay "rtmp://127.0.0.1:1935/live/room1"
                        "rtmp://203.0.113.5/live/room1")) /\
  handlePush envOk server0 bogus = handlePush envOk server0 missing.
Proof.
  intros missing bogus.
  apply (oper_other_than_stop_starts envOk server0 missing bogus
           "" "restart" "live" "room1" "rtmp://203.0.113.5/live/room1").
  - repeat split.
  - apply hasParams_controlRequest.
  - discriminate.
  - discriminate.
  - discriminate.
  - discriminate.
  - discriminate.
Defined.

(** ** The shared-key gate *)

Lemma checkAuth_mismatch (expectedKey : string) (r : Request) :
  Header_Get (Header r) "authorization" <> expectedKey ->
  checkAuth expectedKey r = Some {| Status := 401; Data := Str "Unauthorized" |}.
Proof.
  intros Hne. unfold checkAuth.
  apply String.eqb_neq in Hne. rewrite Hne. reflexivity.
Qed.

Lemma checkAuth_match (r : Request) :
  checkAuth (Header_Get (Header r) "authorization") r = None.
Proof. unfold checkAuth. rewrite String.eqb_refl. reflexivity. Qed.

(** C5. A request on a control or stats route whose [authorization]
    header differs from the shared key is answered with status 401 and the
    body ["Unauthorized"]; whatever the body of the handler is, it does
    not run: the server is unchanged and no collaborator is called. *)
Theorem wrong_key_rejected_before_handler :
  forall (apiKey : string) (env : Env) (server : Server) (r : Request),
    Header_Get (Header r) "authorization" <> apiKey ->
    let rejected :=
      {| reply := Sent {| Status := 401; Data := Str "Unauthorized" |};
         after := server;
         calls := [] |} in
    (forall body, gated apiKey body env server r = rejected) /\
    (forall route, mux apiKey route env server r = rejected).
Proof.
  intros apiKey env server r Hne. cbv zeta.
  assert (Hg : forall body, gated apiKey body env server r =
            {| reply := Sent {| Status := 401; Data := Str "Unauthorized" |};
               after := server; calls := [] |}).
  { intros body. unfold gated. rewrite (checkAuth_mismatch _ _ Hne). reflexivity. }
  split; [exact Hg | intros route; apply Hg].
Qed.

Lemma wrong_key_rejected_before_handler_witness :
  mux "s3cret" ControlPush envOk server0 (withAuthorization "guess" startRoom1) =
    {| reply := Sent {| Status := 401; Data := Str "Unauthorized" |};
       after := server0;
       calls := [] |}.
Proof.
  apply (wrong_key_rejected_before_handler "s3cret" envOk server0
           (withAuthorization "guess" startRoom1)).
  vm_compute. discriminate.
Defined.

(** Behind the bearer-token layer the same holds for the effects; the
    reply is the 401 of the gate unless the token check answered first. *)
Lemma Serve_wrong_key (apiKey : string) (env : Env) (route : Route)
    (server : Server) (r : Request) :
  Header_Get (Header r) "authorization" <> apiKey ->
  after (Serve apiKey env route server r) = server /\
  calls (Serve apiKey env route server r) = [] /\
  (reply (Serve apiKey env route server r) =
     Sent {| Status := 401; Data := Str "Unauthorized" |} \/
   exists err, Config_jwt_secret env <> "" /\
     reply (Serve apiKey env route server r) = Sent {| Status := 403; Data := Str err |}).
Proof.
  intros Hne. unfold Serve, JWTMiddleware, mux, gated.
  rewrite (checkAuth_mismatch _ _ Hne).
  destruct (Config_jwt_secret env) as [|c s] eqn:Hsec; simpl.
  - auto.
  - destruct (jwt_CheckJWT env _ _ r) as [err|] eqn:Hjwt; simpl.
    + repeat split; trivial. right. exists err. split; [discriminate | reflexivity].
    + auto.
Qed.

(** C10. With the empty string as shared key, a request without an
    [authorization] header passes the gate: [checkAuth] sends nothing and
    every control and stats route runs its handler; with no bearer-token
    secret configured either, that is the whole answer of the server. *)
Theorem empty_key_admits_headerless_request :
  forall (env : Env) (server : Server) (r : Request),
    Header r !! "Authorization" = None ->
    Header_Get (Header r) "authorization" = "" /\
    checkAuth "" r = None /\
    (forall route, mux "" route env server r = handlerBody route env server r) /\
    (Config_jwt_secret env = "" ->
     forall route, Serve "" env route server r = handlerBody route env server r).
Proof.
  intros env server r Hnone.
  assert (Hget : Header_Get (Header r) "authorization" = "").
  { unfold Header_Get, Values_Get.
    change (CanonicalMIMEHeaderKey "authorization") with "Authorization".
    rewrite Hnone. reflexivity. }
  assert (Hauth : checkAuth "" r = None).
  { rewrite <- Hget at 1. apply checkAuth_match. }
  assert (Hmux : forall route, mux "" route env server r = handlerBody route env server r).
  { intros route. unfold mux, gated. rewrite Hauth. reflexivity. }
  repeat split; trivial.
  intros Hsec route. unfold Serve, JWTMiddleware. rewrite Hsec. simpl. apply Hmux.
Qed.

Lemma empty_key_admits_headerless_request_witness :
  mux "" ControlPush envOk server0 startRoom1 = handlePush envOk server0 startRoom1 /\
  Serve "" envOk ControlPull server0 startRoom1 = handlePull envOk server0 startRoom1.
Proof.
  destruct (empty_key_admits_headerless_request envOk server0 startRoom1)
    as (_ & _ & Hmux & Hserve).
  - reflexivity.
  - split.
    + exact (Hmux ControlPush).
    + exact (Hserve eq_refl ControlPull).
Defined.

(** ** Statistics of one room *)

(** C7. [GetLiveStat] for room [r] looks the stream up under the key
    ["live/<r>"] and answers: 404 with "No room was found" when there is
    none; 500 with "This room has no readers" when the stream has a nil
    reader; 500 with the not-a-virtual-reader message when its reader is
    of another type; and otherwise 200 with one publisher-shaped entry
    whose key is ["live/<r>"]. *)
Theorem GetLiveStat_cases :
  forall (env : Env) (server : Server) (req : Request) (rs : RtmpStream) (room : string),
    handler server = HandlerRtmpStream (Some rs) ->
    ParseForm req = None ->
    Form_Get req "room" = room ->
    let key := "live/" +:+ room in
    let run := GetLiveStat env server req in
    after run = server /\ calls run = [] /\
    (GetStreams rs !! key = None ->
     reply run = Sent {| Status := 404; Data := Str "No room was found" |}) /\
    (forall s, GetStreams rs !! key = Some s -> GetReader s = ReaderNil ->
     reply run = Sent {| Status := 500; Data := Str "This room has no readers" |}) /\
    (forall s, GetStreams rs !! key = Some s -> GetReader s = ReaderOther ->
     reply run =
       Sent {| Status := 500;
               Data := Str "Reader returned by RTMP stream was not virtual reader." |}) /\
    (forall s v, GetStreams rs !! key = Some s -> GetReader s = ReaderVir v ->
     reply run =
       Sent {| Status := 200;
               Data := Stat {| Key := key;
                               Url := URL (VirReader_Info v);
                               stream_StreamId := StreamId (ReadBWInfo v);
                               VideoTotalBytes := VideoDatainBytes (ReadBWInfo v);
                               VideoSpeed := VideoSpeedInBytesperMS (ReadBWInfo v);
                               AudioTotalBytes := AudioDatainBytes (ReadBWInfo v);
                               AudioSpeed := AudioSpeedInBytesperMS (ReadBWInfo v) |} |}).
Proof.
  intros env server req rs room Hh Hp Hroom. cbv zeta.
  unfold GetLiveStat. rewrite Hh, Hp, Hroom. unfold GetStream.
  destruct (GetStreams rs !! ("live/" +:+ room)) as [s|] eqn:Hs.
  - destruct (GetReader s) as [|v|] eqn:Hr; simpl;
      (split; [reflexivity | split; [reflexivity |]]);
      (split; [discriminate | split; [| split]]).
    + reflexivity.
    + intros s' [= <-]. congruence.
    + intros s' v' [= <-]. congruence.
    + intros s' [= <-]. congruence.
    + intros s' [= <-]. congruence.
    + intros s' v' [= <-] Hv. rewrite Hr in Hv. injection Hv as <-. reflexivity.
    + intros s' [= <-]. congruence.
    + reflexivity.
    + intros s' v' [= <-]. congruence.
  - simpl. repeat split; trivial; intros; discriminate.
Qed.

Lemma GetLiveStat_cases_witness :
  reply (GetLiveStat envOk statsServer (roomRequest "room9")) =
    Sent {| Status := 404; Data := Str "No room was found" |} /\
  reply (GetLiveStat envOk statsServer (roomRequest "room3")) =
    Sent {| Status := 500; Data := Str "This room has no readers" |} /\
  reply (GetLiveStat envOk statsServer (roomRequest "room2")) =
    Sent {| Status := 500;
            Data := Str "Reader returned by RTMP stream was not virtual reader." |} /\
  reply (GetLiveStat envOk statsServer (roomRequest "room1")) =
    Sent {| Status := 200;
            Data := Stat {| Key := "live/room1";
                            Url := "rtmp://127.0.0.1:1935/live/room1";
                            stream_StreamId := 1;
                            VideoTotalBytes := 4096;
                            VideoSpeed := 12;
                            AudioTotalBytes := 512;
                            AudioSpeed := 2 |} |}.
Proof.
  split; [| split; [| split]].
  - destruct (GetLiveStat_cases envOk statsServer (roomRequest "room9") rtmpStream1
                "room9" eq_refl eq_refl eq_refl) as (_ & _ & Hnone & _).
    exact (Hnone eq_refl).
  - destruct (GetLiveStat_cases envOk statsServer (roomRequest "room3") rtmpStream1
                "room3" eq_refl eq_refl eq_refl) as (_ & _ & _ & Hnil & _).
    exact (Hnil _ eq_refl eq_refl).
  - destruct (GetLiveStat_cases envOk statsServer (roomRequest "room2") rtmpStream1
                "room2" eq_refl eq_refl eq_refl) as (_ & _ & _ & _ & Hother & _).
    exact (Hother _ eq_refl eq_refl).
  - destruct (GetLiveStat_cases envOk statsServer (roomRequest "room1") rtmpStream1
                "room1" eq_refl eq_refl eq_refl) as (_ & _ & _ & _ & _ & Hvir).
    exact (Hvir _ virReader1 eq_refl eq_refl).
Defined.

(** ** Statistics of all rooms *)

Lemma foldl_collectPublisher (l : list (string * Stream)) (msgs : streams) :
  foldl (fun a kv => collectPublisher (fst kv) (snd kv) a) msgs l =
    {| Publishers := Publishers msgs ++ omap publisherOf l;
       Players := Players msgs |}.
Proof.
  revert msgs. induction l as [|[key s] l IH]; intros msgs; simpl.
  - rewrite app_nil_r. destruct msgs; reflexivity.
  - rewrite IH. unfold collectPublisher, publisherOf. simpl.
    destruct (GetReader s); simpl; try reflexivity.
    rewrite <- app_assoc. reflexivity.
Qed.

Lemma foldl_collectPlayer (key : string) (l : list (string * WsValue)) (msgs : streams) :
  foldl (fun a kv => collectPlayer key (fst kv) (snd kv) a) msgs l =
    {| Publishers := Publishers msgs;
       Players := Players msgs ++ omap (playerOf key) l |}.
Proof.
  revert msgs. induction l as [|[k v] l IH]; intros msgs; simpl.
  - rewrite app_nil_r. destruct msgs; reflexivity.
  - rewrite IH. unfold collectPlayer, playerOf. simpl.
    destruct v as [pw|]; simpl; try reflexivity.
    destruct (GetWriter pw); simpl; try reflexivity.
    rewrite <- app_assoc. reflexivity.
Qed.

Lemma foldl_collectPlayers (l : list (string * Stream)) (msgs : streams) :
  foldl (fun a kv => collectPlayers (fst kv) (snd kv) a) msgs l =
    {| Publishers := Publishers msgs;
       Players := Players msgs ++ (l ≫= playersOf) |}.
Proof.
  revert msgs. induction l as [|[key s] l IH]; intros msgs; simpl.
  - rewrite app_nil_r. destruct msgs; reflexivity.
  - rewrite IH. unfold collectPlayers, Range. rewrite foldl_collectPlayer. simpl.
    unfold playersOf at 2. simpl. rewrite <- app_assoc. reflexivity.
Qed.

(** The snapshot, entry by entry of the registry. *)
Lemma GetLiveStatics_snapshot (env : Env) (server : Server) (req : Request)
    (rs : RtmpStream) :
  handler server = HandlerRtmpStream (Some rs) ->
  GetLiveStatics env server req =
    respond 200
      (Stats {| Publishers := omap publisherOf (map_to_list (GetStreams rs));
                Players := map_to_list (GetStreams rs) ≫= playersOf |})
      server [].
Proof.
  intros Hh. unfold GetLiveStatics, Range. rewrite Hh.
  rewrite foldl_collectPublisher, foldl_collectPlayers. reflexivity.
Qed.

Lemma elem_of_publishers (rs : RtmpStream) (m : stream) :
  m ∈ omap publisherOf (map_to_list (GetStreams rs)) <->
  exists key s v,
    GetStreams rs !! key = Some s /\ GetReader s = ReaderVir v /\ m = readerStat key v.
Proof.
  rewrite list_elem_of_omap. split.
  - intros ([key s] & Hin & Hm). apply elem_of_map_to_list in Hin.
    unfold publisherOf in Hm. simpl in Hm.
    destruct (GetReader s) as [|v|] eqn:Hr; try discriminate.
    injection Hm as <-. eauto 6.
  - intros (key & s & v & Hs & Hr & ->). exists (key, s). split.
    + apply elem_of_map_to_list. exact Hs.
    + unfold publisherOf. simpl. rewrite Hr. reflexivity.
Qed.

Lemma elem_of_players (rs : RtmpStream) (m : stream) :
  m ∈ map_to_list (GetStreams rs) ≫= playersOf <->
  exists key s k pw v,
    GetStreams rs !! key = Some s /\
    GetWs s !! k = Some (WsPackWriterCloser pw) /\
    GetWriter pw = WriterVir v /\ m = writerStat key v.
Proof.
  rewrite list_elem_of_bind. split.
  - intros ([key s] & Hm & Hin). apply elem_of_map_to_list in Hin.
    unfold playersOf in Hm. simpl in Hm.
    apply list_elem_of_omap in Hm as ([k w] & Hw & Hp).
    apply elem_of_map_to_list in Hw.
    unfold playerOf in Hp. simpl in Hp.
    destruct w as [pw|]; try discriminate.
    destruct (GetWriter pw) as [|v|] eqn:Hv; try discriminate.
    injection Hp as <-. eauto 10.
  - intros (key & s & k & pw & v & Hs & Hk & Hv & ->). exists (key, s). split.
    + unfold playersOf. simpl. apply list_elem_of_omap.
      exists (k, WsPackWriterCloser pw). split.
      * apply elem_of_map_to_list. exact Hk.
      * unfold playerOf. simpl. rewrite Hv. reflexivity.
    + apply elem_of_map_to_list. exact Hs.
Qed.

(** C6. [GetLiveStatics] on a stream registry answers 200 with a
    snapshot in which every [publishers] entry is the counters of a
    [VirReader] that is the reader of a registered stream, and every
    [players] entry the counters of a [VirWriter] held by a
    [PackWriterCloser] of the writer set of a registered stream -- and
    each of those has its entry. Streams and writers of any other kind
    add nothing and raise no error: the status is 200 whatever the
    registry holds. *)
Theorem GetLiveStatics_only_virtual :
  forall (env : Env) (server : Server) (req : Request) (rs : RtmpStream),
    handler server = HandlerRtmpStream (Some rs) ->
    exists msgs : streams,
      GetLiveStatics env server req = respond 200 (Stats msgs) server [] /\
      (forall m, m ∈ Publishers msgs <->
         exists key s v,
           GetStreams rs !! key = Some s /\ GetReader s = ReaderVir v /\
           m = readerStat key v) /\
      (forall m, m ∈ Players msgs <->
         exists key s k pw v,
           GetStreams rs !! key = Some s /\
           GetWs s !! k = Some (WsPackWriterCloser pw) /\
           GetWriter pw = WriterVir v /\
           m = writerStat key v).
Proof.
  intros env server req rs Hh.
  eexists. split; [apply GetLiveStatics_snapshot; exact Hh |].
  simpl. split; intros m.
  - apply elem_of_publishers.
  - apply elem_of_players.
Qed.

Lemma GetLiveStatics_only_virtual_witness :
  exists msgs : streams,
    GetLiveStatics envOk statsServer (roomRequest "") =
      respond 200 (Stats msgs) statsServer [] /\
    (forall m, m ∈ Publishers msgs <->
       exists key s v,
         GetStreams rtmpStream1 !! key = Some s /\ GetReader s = ReaderVir v /\
         m = readerStat key v) /\
    (forall m, m ∈ Players msgs <->
       exists key s k pw v,
         GetStreams rtmpStream1 !! key = Some s /\
         GetWs s !! k = Some (WsPackWriterCloser pw) /\
         GetWriter pw = WriterVir v /\
         m = writerStat key v).
Proof.
  apply (GetLiveStatics_only_virtual envOk statsServer (roomRequest "") rtmpStream1).
  reflexivity.
Defined.

(** The snapshot of the sample registry: the reader of room 1, and the
    instrumented writers of rooms 1 and 2. *)
Example GetLiveStatics_sample :
  exists pubs plays,
    reply (GetLiveStatics envOk statsServer (roomRequest "")) =
      Sent {| Status := 200; Data := Stats {| Publishers := pubs; Players := plays |} |} /\
    pubs = [readerStat "live/room1" virReader1] /\
    Permutation plays [writerStat "live/room1" virWriter1; writerStat "live/room2" virWriter1].
Proof.
  eexists _, _. split; [vm_compute; reflexivity |]. split; [reflexivity |].
  first [ reflexivity | apply perm_swap ].
Qed.

(** * Further properties of the handlers *)

(** ** What the relay handlers leave alone *)

Lemma handlers_frame :
  forall (env : Env) (server : Server) (req : Request) (key : string),
    let path := Form_Get req "app" +:+ "/" +:+ Form_Get req "name" in
    (handler (after (handlePush env server req)) = handler server /\
     rtmpAddr (after (handlePush env server req)) = rtmpAddr server /\
     (key <> "push:" +:+ path ->
      session (after (handlePush env server req)) !! key = session server !! key)) /\
    (handler (after (handlePull env server req)) = handler server /\
     rtmpAddr (after (handlePull env server req)) = rtmpAddr server /\
     (key <> "pull:" +:+ path ->
      session (after (handlePull env server req)) !! key = session server !! key)).
Proof.
  intros env server req key. cbv zeta.
  unfold handlePush, handlePull.
  destruct (ParseForm req); simpl; [auto 10 |].
  destruct ((String.length (Form_Get req "app") <=? 0)%nat
            || (String.length (Form_Get req "name") <=? 0)%nat
            || (String.length (Form_Get req "url") <=? 0)%nat); simpl; [auto 10 |].
  destruct (String.eqb (Form_Get req "oper") "stop"); simpl.
  - split.
    + destruct (session server !! _); simpl; repeat split; trivial.
      intros Hne. apply lookup_delete_ne. congruence.
    + destruct (session server !! _); simpl; repeat split; trivial.
      intros Hne. apply lookup_delete_ne. congruence.
  - split.
    + destruct (Start env _); simpl; repeat split; trivial.
      intros Hne. apply lookup_insert_ne. congruence.
    + destruct (Start env _); simpl; repeat split; trivial.
      intros Hne. apply lookup_insert_ne. congruence.
Qed.

(** X1. Whatever the request, [handlePush] and [handlePull] keep the
    handler and the RTMP address of the server, and every binding of the
    registry other than the one of the session key built from the [app]
    and [name] of the request. *)
Theorem relay_handlers_frame :
  forall (env : Env) (server : Server) (req : Request) (key : string),
    let path := Form_Get req "app" +:+ "/" +:+ Form_Get req "name" in
    (handler (after (handlePush env server req)) = handler server /\
     rtmpAddr (after (handlePush env server req)) = rtmpAddr server /\
     (key <> "push:" +:+ path ->
      session (after (handlePush env server req)) !! key = session server !! key)) /\
    (handler (after (handlePull env server req)) = handler server /\
     rtmpAddr (after (handlePull env server req)) = rtmpAddr server /\
     (key <> "pull:" +:+ path ->
      session (after (handlePull env server req)) !! key = session server !! key)).
Proof. exact handlers_frame. Qed.

(** X2. Push and pull sessions do not meet: no push request changes the
    binding of a key that starts with ["pull:"], and no pull request the
    binding of a key that starts with ["push:"]. *)
Theorem push_and_pull_keys_are_disjoint :
  forall (env : Env) (server : Server) (req : Request) (path : string),
    session (after (handlePush env server req)) !! ("pull:" +:+ path)
      = session server !! ("pull:" +:+ path) /\
    session (after (handlePull env server req)) !! ("push:" +:+ path)
      = session server !! ("push:" +:+ path).
Proof.
  intros env server req path. split.
  - apply (handlers_frame env server req ("pull:" +:+ path)).
    simpl. discriminate.
  - apply (handlers_frame env server req ("push:" +:+ path)).
    simpl. discriminate.
Qed.

(** ** Requests the relay handlers cannot carry out *)

(** X3. A push or pull request whose form does not parse, or in which
    [app], [name] or [url] is empty, has no effect, whatever its [oper]:
    the server is unchanged and no relay is started or stopped. With a
    parsed form the payload is the parameter message. *)
Theorem relay_client_error_has_no_effect :
  forall (env : Env) (server : Server) (req : Request),
    (ParseForm req <> None \/ Form_Get req "app" = "" \/
     Form_Get req "name" = "" \/ Form_Get req "url" = "") ->
    (after (handlePush env server req) = server /\
     calls (handlePush env server req) = [] /\
     (ParseForm req = None ->
      sentData (handlePush env server req) =
        Some (Str "control push parameter error, please check them."))) /\
    (after (handlePull env server req) = server /\
     calls (handlePull env server req) = [] /\
     (ParseForm req = None ->
      sentData (handlePull env server req) =
        Some (Str "control push parameter error, please check them."))).
Proof.
  intros env server req Herr.
  unfold handlePush, handlePull, sentData.
  destruct (ParseForm req) as [e|]; simpl.
  - repeat split; trivial; discriminate.
  - assert (Hlen : ((String.length (Form_Get req "app") <=? 0)%nat
                    || (String.length (Form_Get req "name") <=? 0)%nat
                    || (String.length (Form_Get req "url") <=? 0)%nat) = true).
    { destruct Herr as [H | [H | [H | H]]]; [congruence | | |];
        rewrite H; simpl; rewrite ?orb_true_r; reflexivity. }
    rewrite Hlen. simpl. repeat split; trivial.
Qed.

Lemma relay_client_error_has_no_effect_witness :
  after (handlePush envOk serverWithPush (controlRequest "stop" "live" "room1" ""))
    = serverWithPush /\
  calls (handlePush envOk serverWithPush (controlRequest "stop" "live" "room1" "")) = [].
Proof.
  destruct (relay_client_error_has_no_effect envOk serverWithPush
              (controlRequest "stop" "live" "room1" "")) as ((Ha & Hc & _) & _).
  - right. right. right. reflexivity.
  - split; assumption.
Defined.

(** X4. A stop request for a session key that is not in the registry has
    no effect: the server is unchanged, no relay is stopped, and the
    payload names the key that does not exist. *)
Theorem stop_of_absent_key_has_no_effect :
  forall (env : Env) (server : Server) (req : Request) (app name url : string),
    hasParams req "stop" app name url ->
    app <> "" -> name <> "" -> url <> "" ->
    (session server !! ("push:" +:+ app +:+ "/" +:+ name) = None ->
     after (handlePush env server req) = server /\
     calls (handlePush env server req) = [] /\
     sentData (handlePush env server req) =
       Some (Str ("<h1>session key[" +:+ ("push:" +:+ app +:+ "/" +:+ name)
                  +:+ "] not exist, please check it again.</h1>"))) /\
    (session server !! ("pull:" +:+ app +:+ "/" +:+ name) = None ->
     after (handlePull env server req) = server /\
     calls (handlePull env server req) = [] /\
     sentData (handlePull env server req) =
       Some (Str ("session key[" +:+ ("pull:" +:+ app +:+ "/" +:+ name)
                  +:+ "] not exist, please check it again."))).
Proof.
  intros env server req app name url Hreq Happ Hname Hurl.
  rewrite (handlePush_stop env server req "stop" app name url) by (assumption || reflexivity).
  rewrite (handlePull_stop env server req "stop" app name url) by (assumption || reflexivity).
  split; intros Hnone; rewrite Hnone; (split; [| split]); reflexivity.
Qed.

Lemma stop_of_absent_key_has_no_effect_witness :
  after (handlePull envOk serverWithPush stopRoom1) = serverWithPush /\
  calls (handlePull envOk serverWithPush stopRoom1) = [] /\
  sentData (handlePull envOk serverWithPush stopRoom1) =
    Some (Str "session key[pull:live/room1] not exist, please check it again.").
Proof.
  apply (stop_of_absent_key_has_no_effect envOk serverWithPush stopRoom1
           "live" "room1" "rtmp://203.0.113.5/live/room1"
           (hasParams_controlRequest _ _ _ _)); try discriminate.
  reflexivity.
Defined.

(** ** Start followed by stop *)

Lemma string_app_assoc (a b c : string) : (a +:+ b) +:+ c = a +:+ (b +:+ c).
Proof.
  induction a as [|x a IH]; [reflexivity |].
  change (String x ((a +:+ b) +:+ c) = String x (a +:+ (b +:+ c))).
  rewrite IH. reflexivity.
Qed.

Lemma string_app_nonempty (a b : string) : a <> "" -> a +:+ b <> "".
Proof. destruct a; [congruence | discriminate]. Qed.

(** X5. After a start whose worker starts, a stop of the same [app] and
    [name], whatever [url] it carries, stops the relay the start built and
    nothing else, and leaves the registry as it was before the start
    without the session key: the server is back in its first state when
    the key was free, and a relay bound to the key before is dropped
    without having been stopped. *)
Theorem start_then_stop :
  forall (env1 env2 : Env) (server : Server) (start stop : Request)
    (oper app name url url1 : string),
    app <> "" -> name <> "" -> url <> "" -> url1 <> "" -> oper <> "stop" ->
    hasParams start oper app name url ->
    hasParams stop "stop" app name url1 ->
    let localurl := "rtmp://127.0.0.1" +:+ rtmpAddr server +:+ "/" +:+ app +:+ "/" +:+ name in
    let pushKey := "push:" +:+ app +:+ "/" +:+ name in
    let pullKey := "pull:" +:+ app +:+ "/" +:+ name in
    let pushRelay := NewRtmpRelay localurl url in
    let pullRelay := NewRtmpRelay url localurl in
    (Start env1 pushRelay = None ->
     let stopped := handlePush env2 (after (handlePush env1 server start)) stop in
     calls stopped = [RelayStop pushRelay] /\
     session (after stopped) = delete pushKey (session server) /\
     (session server !! pushKey = None -> after stopped = server)) /\
    (Start env1 pullRelay = None ->
     let stopped := handlePull env2 (after (handlePull env1 server start)) stop in
     calls stopped = [RelayStop pullRelay] /\
     session (after stopped) = delete pullKey (session server) /\
     (session server !! pullKey = None -> after stopped = server)).
Proof.
  intros env1 env2 server start stop oper app name url url1
    Happ Hname Hurl Hurl1 Hoper Hstart Hstop.
  cbv zeta. split; intros Hok.
  - rewrite (handlePush_start env1 server start oper app name url) by assumption.
    cbv zeta. rewrite Hok. simpl.
    rewrite (handlePush_stop env2 _ stop "stop" app name url1) by (assumption || reflexivity).
    simpl. rewrite lookup_insert_eq. simpl. rewrite delete_insert_eq.
    split; [reflexivity | split; [reflexivity |]].
    intros Hfree. rewrite delete_id by exact Hfree. destruct server; reflexivity.
  - rewrite (handlePull_start env1 server start oper app name url) by assumption.
    cbv zeta. rewrite Hok. simpl.
    rewrite (handlePull_stop env2 _ stop "stop" app name url1) by (assumption || reflexivity).
    simpl. rewrite lookup_insert_eq. simpl. rewrite delete_insert_eq.
    split; [reflexivity | split; [reflexivity |]].
    intros Hfree. rewrite delete_id by exact Hfree. destruct server; reflexivity.
Qed.

Lemma start_then_stop_witness :
  let stopped :=
    handlePush envFail (after (handlePush envOk serverWithPush startRoom1))
      (controlRequest "stop" "live" "room1" "rtmp://192.0.2.1/other") in
  calls stopped =
    [RelayStop (NewRtmpRelay "rtmp://127.0.0.1:1935/live/room1"
                             "rtmp://203.0.113.5/live/room1")] /\
  session (after stopped) = delete "push:live/room1" (session serverWithPush) /\
  (session serverWithPush !! "push:live/room1" = None -> after stopped = serverWithPush).
Proof.
  apply (start_then_stop envOk envFail serverWithPush startRoom1
           (controlRequest "stop" "live" "room1" "rtmp://192.0.2.1/other")
           "start" "live" "room1" "rtmp://203.0.113.5/live/room1" "rtmp://192.0.2.1/other");
    try discriminate; try apply hasParams_controlRequest.
  reflexivity.
Defined.

(** X6. The session key joins [app] and [name] with a slash and nothing
    tells the two apart afterwards: a push stop addressed to [a] and
    [b/c] stops the session that was started for [a/b] and [c]. *)
Theorem session_key_joins_app_and_name :
  forall (env1 env2 : Env) (server : Server) (start stop : Request)
    (oper a b c url url1 : string),
    a <> "" -> c <> "" -> url <> "" -> url1 <> "" -> oper <> "stop" ->
    hasParams start oper (a +:+ "/" +:+ b) c url ->
    hasParams stop "stop" a (b +:+ "/" +:+ c) url1 ->
    let relay :=
      NewRtmpRelay
        ("rtmp://127.0.0.1" +:+ rtmpAddr server +:+ "/" +:+ (a +:+ "/" +:+ b) +:+ "/" +:+ c)
        url in
    Start env1 relay = None ->
    let started := handlePush env1 server start in
    let stopped := handlePush env2 (after started) stop in
    session (after started) !! ("push:" +:+ (a +:+ "/" +:+ b) +:+ "/" +:+ c) = Some relay /\
    calls stopped = [RelayStop relay] /\
    session (after stopped) !! ("push:" +:+ (a +:+ "/" +:+ b) +:+ "/" +:+ c) = None.
Proof.
  intros env1 env2 server start stop oper a b c url url1
    Ha Hc Hurl Hurl1 Hoper Hstart Hstop.
  cbv zeta. intros Hok.
  assert (Hab : a +:+ "/" +:+ b <> "") by (apply string_app_nonempty; exact Ha).
  assert (Hbc : b +:+ "/" +:+ c <> "") by (destruct b; discriminate).
  assert (Hkey : "push:" +:+ (a +:+ "/" +:+ b) +:+ "/" +:+ c
                 = "push:" +:+ a +:+ "/" +:+ (b +:+ "/" +:+ c)).
  { simpl. rewrite !string_app_assoc. reflexivity. }
  rewrite (handlePush_start env1 server start oper (a +:+ "/" +:+ b) c url) by assumption.
  cbv zeta. rewrite Hok. simpl.
  rewrite (handlePush_stop env2 _ stop "stop" a (b +:+ "/" +:+ c) url1)
    by (assumption || reflexivity).
  simpl. simpl in Hkey. rewrite <- Hkey. rewrite !lookup_insert_eq. simpl.
  rewrite lookup_delete_eq. auto.
Qed.

Lemma session_key_joins_app_and_name_witness :
  let relay := NewRtmpRelay "rtmp://127.0.0.1:1935/live/eu/room1"
                            "rtmp://203.0.113.5/live/room1" in
  let started :=
    handlePush envOk server0
      (controlRequest "start" "live/eu" "room1" "rtmp://203.0.113.5/live/room1") in
  let stopped :=
    handlePush envOk (after started)
      (controlRequest "stop" "live" "eu/room1" "rtmp://203.0.113.5/live/room1") in
  session (after started) !! "push:live/eu/room1" = Some relay /\
  calls stopped = [RelayStop relay] /\
  session (after stopped) !! "push:live/eu/room1" = None.
Proof.
  apply (session_key_joins_app_and_name envOk envOk server0
           (controlRequest "start" "live/eu" "room1" "rtmp://203.0.113.5/live/room1")
           (controlRequest "stop" "live" "eu/room1" "rtmp://203.0.113.5/live/room1")
           "start" "live" "eu" "room1"
           "rtmp://203.0.113.5/live/room1" "rtmp://203.0.113.5/live/room1");
    try discriminate; try apply hasParams_controlRequest.
  reflexivity.
Defined.

(** ** Room-key handlers *)

(** X7. The three room-key handlers answer a request whose form does not
    parse, or whose [room] is empty, with status 400 and the usage string
    of their route; the room-key store is not called and the server is
    unchanged. [handleDelete] does so before it looks at the handler of
    the server, whatever that handler is. *)
Theorem room_handlers_reject_missing_room :
  forall (env : Env) (server : Server) (r : Request),
    (ParseForm r <> None \/ Form_Get r "room" = "") ->
    handleReset env server r =
      respond 400 (Str "url: /control/reset?room=<ROOM_NAME>") server [] /\
    handleGet env server r =
      respond 400 (Str "url: /control/get?room=<ROOM_NAME>") server [] /\
    handleDelete env server r =
      respond 400 (Str "url: /control/delete?room=<ROOM_NAME>") server [].
Proof.
  intros env server r Herr.
  unfold handleReset, handleGet, handleDelete.
  destruct (ParseForm r) as [e|]; [auto |].
  destruct Herr as [H | H]; [congruence |].
  rewrite H. simpl. auto.
Qed.

Lemma room_handlers_reject_missing_room_witness :
  handleDelete envOk (NewServer HandlerOther ":1935") (roomRequest "") =
    respond 400 (Str "url: /control/delete?room=<ROOM_NAME>")
      (NewServer HandlerOther ":1935") [].
Proof.
  apply (room_handlers_reject_missing_room envOk (NewServer HandlerOther ":1935")
           (roomRequest "")).
  right. reflexivity.
Defined.

(** X8. For a room given by name, [handleReset] calls [SetKey] and
    [handleGet] calls [GetKey], once and with that room; the answer is 200
    with the message of the store when it reports no error and 400 with
    the text of the error, the message being dropped, when it does. The
    server is unchanged. *)
Theorem room_key_handlers_forward_the_store :
  forall (env : Env) (server : Server) (r : Request) (room : string),
    ParseForm r = None -> Form_Get r "room" = room -> room <> "" ->
    (after (handleReset env server r) = server /\
     calls (handleReset env server r) = [SetKey room] /\
     (forall msg, RoomKeys_SetKey env room = (msg, None) ->
        reply (handleReset env server r) = Sent {| Status := 200; Data := Str msg |}) /\
     (forall msg err, RoomKeys_SetKey env room = (msg, Some err) ->
        reply (handleReset env server r) = Sent {| Status := 400; Data := Str err |})) /\
    (after (handleGet env server r) = server /\
     calls (handleGet env server r) = [GetKey room] /\
     (forall msg, RoomKeys_GetKey env room = (msg, None) ->
        reply (handleGet env server r) = Sent {| Status := 200; Data := Str msg |}) /\
     (forall msg err, RoomKeys_GetKey env room = (msg, Some err) ->
        reply (handleGet env server r) = Sent {| Status := 400; Data := Str err |})).
Proof.
  intros env server r room Hp Hroom Hne.
  unfold handleReset, handleGet. rewrite Hp, Hroom.
  assert (Hlen : (String.length room =? 0)%nat = false)
    by (destruct room; [congruence | reflexivity]).
  rewrite Hlen. split.
  - destruct (RoomKeys_SetKey env room) as [m [e|]]; simpl;
      (split; [reflexivity | split; [reflexivity | split]]); intros; congruence.
  - destruct (RoomKeys_GetKey env room) as [m [e|]]; simpl;
      (split; [reflexivity | split; [reflexivity | split]]); intros; congruence.
Qed.

Lemma room_key_handlers_forward_the_store_witness :
  after (handleReset envOk server0 (roomRequest "room1")) = server0 /\
  calls (handleReset envOk server0 (roomRequest "room1")) = [SetKey "room1"] /\
  reply (handleReset envOk server0 (roomRequest "room1")) =
    Sent {| Status := 200; Data := Str "key" |}.
Proof.
  destruct (room_key_handlers_forward_the_store envOk server0 (roomRequest "room1")
              "room1" eq_refl eq_refl) as ((Ha & Hc & Hok & _) & _).
  - discriminate.
  - split; [exact Ha | split; [exact Hc | exact (Hok "key" eq_refl)]].
Defined.

(** X9. [handleDelete] deletes the key of a room only when a stream is
    registered under ["live/<room>"]. Without one it answers 404 "No room
    was found" and calls nothing, the room-key store included. With one
    it stops and closes the stream, then calls [DeleteChannel], and
    answers 200 "Ok" when that reports [true] and 404 "room not found"
    otherwise. The server is unchanged. *)
Theorem handleDelete_needs_the_stream :
  forall (env : Env) (server : Server) (r : Request) (rs : RtmpStream) (room : string),
    handler server = HandlerRtmpStream (Some rs) ->
    ParseForm r = None -> Form_Get r "room" = room -> room <> "" ->
    let key := "live/" +:+ room in
    let run := handleDelete env server r in
    after run = server /\
    (GetStreams rs !! key = None ->
     reply run = Sent {| Status := 404; Data := Str "No room was found" |} /\
     calls run = []) /\
    (is_Some (GetStreams rs !! key) ->
     calls run = [TransStop key; CloseAndComplete key; DeleteChannel room] /\
     reply run =
       if RoomKeys_DeleteChannel env room
       then Sent {| Status := 200; Data := Str "Ok" |}
       else Sent {| Status := 404; Data := Str "room not found" |}).
Proof.
  intros env server r rs room Hh Hp Hroom Hne. cbv zeta.
  unfold handleDelete, GetStream. rewrite Hp, Hroom, Hh.
  assert (Hlen : (String.length room =? 0)%nat = false)
    by (destruct room; [congruence | reflexivity]).
  rewrite Hlen.
  destruct (GetStreams rs !! ("live/" +:+ room)) as [s|] eqn:Hs.
  - destruct (RoomKeys_DeleteChannel env room); simpl;
      (split; [reflexivity | split; [discriminate | auto]]).
  - simpl. split; [reflexivity | split; [auto |]].
    intros [s Hsome]. discriminate.
Qed.

Lemma handleDelete_needs_the_stream_witness :
  (reply (handleDelete envOk statsServer (roomRequest "room9")) =
     Sent {| Status := 404; Data := Str "No room was found" |} /\
   calls (handleDelete envOk statsServer (roomRequest "room9")) = []) /\
  (calls (handleDelete envOk statsServer (roomRequest "room1")) =
     [TransStop "live/room1"; CloseAndComplete "live/room1"; DeleteChannel "room1"] /\
   reply (handleDelete envOk statsServer (roomRequest "room1")) =
     Sent {| Status := 200; Data := Str "Ok" |}).
Proof.
  split.
  - destruct (handleDelete_needs_the_stream envOk statsServer (roomRequest "room9")
                rtmpStream1 "room9" eq_refl eq_refl eq_refl) as (_ & Hnone & _).
    + discriminate.
    + exact (Hnone eq_refl).
  - destruct (handleDelete_needs_the_stream envOk statsServer (roomRequest "room1")
                rtmpStream1 "room1" eq_refl eq_refl eq_refl) as (_ & _ & Hsome).
    + discriminate.
    + apply Hsome. eexists. reflexivity.
Defined.

(** ** The gate and the bearer-token layer *)

(** X10. The gate accepts a request exactly when the first value of its
    [Authorization] header is the shared key, byte for byte; further
    values of the header are not looked at. An accepted request is
    answered by the handler of its route. *)
Theorem gate_accepts_exactly_the_key :
  forall (apiKey : string) (r : Request),
    (checkAuth apiKey r = None <-> Header_Get (Header r) "authorization" = apiKey) /\
    (forall v rest, Header r !! "Authorization" = Some (v :: rest) ->
       (checkAuth apiKey r = None <-> v = apiKey)) /\
    (Header_Get (Header r) "authorization" = apiKey ->
     forall route env server,
       mux apiKey route env server r = handlerBody route env server r).
Proof.
  intros apiKey r.
  assert (Hiff : checkAuth apiKey r = None <->
                 Header_Get (Header r) "authorization" = apiKey).
  { unfold checkAuth.
    destruct (String.eqb (Header_Get (Header r) "authorization") apiKey) eqn:He; simpl.
    - apply String.eqb_eq in He. tauto.
    - apply String.eqb_neq in He. split; [discriminate | tauto]. }
  split; [exact Hiff | split].
  - intros v rest Hv. rewrite Hiff. unfold Header_Get, Values_Get.
    change (CanonicalMIMEHeaderKey "authorization") with "Authorization".
    rewrite Hv. reflexivity.
  - intros Heq route env server. unfold mux, gated.
    apply Hiff in Heq. rewrite Heq. reflexivity.
Qed.

(** X11. With a [jwt.secret] configured, an empty [jwt.algorithm] or one
    that the library does not know is no error: the token is checked with
    HS256. A request whose token check fails is answered 403 with the text
    of the check's error, and neither the gate nor a handler runs. *)
Theorem unknown_algorithm_falls_back_to_HS256 :
  forall (apiKey : string) (env : Env) (route : Route) (server : Server) (r : Request),
    Config_jwt_secret env <> "" ->
    (Config_jwt_algorithm env = "" \/
     jwt_GetSigningMethod env (Config_jwt_algorithm env) = None) ->
    Serve apiKey env route server r =
      match jwt_CheckJWT env (Config_jwt_secret env) "HS256" r with
      | Some err => respond 403 (Str err) server []
      | None => mux apiKey route env server r
      end.
Proof.
  intros apiKey env route server r Hsec Halg.
  unfold Serve, JWTMiddleware.
  destruct (Config_jwt_secret env) as [|c s] eqn:Hs; [congruence |]. simpl.
  destruct Halg as [Hempty | Hunknown].
  - rewrite Hempty. reflexivity.
  - rewrite Hunknown. destruct (0 <? String.length (Config_jwt_algorithm env))%nat; reflexivity.
Qed.

Lemma unknown_algorithm_falls_back_to_HS256_witness :
  let env :=
    {| Start := fun _ => None;
       RoomKeys_SetKey := fun _ => ("key", None);
       RoomKeys_GetKey := fun _ => ("key", None);
       RoomKeys_DeleteChannel := fun _ => true;
       Config_jwt_secret := "hunter2";
       Config_jwt_algorithm := "HS999";
       jwt_GetSigningMethod := fun _ => None;
       jwt_CheckJWT := fun _ method _ =>
         if String.eqb method "HS256"
         then Some "Required authorization token not found"
         else None |} in
  Serve "s3cret" env ControlPush server0 (withAuthorization "s3cret" startRoom1) =
    respond 403 (Str "Required authorization token not found") server0 [].
Proof.
  intros env.
  apply (unknown_algorithm_falls_back_to_HS256 "s3cret" env ControlPush server0
           (withAuthorization "s3cret" startRoom1)).
  - discriminate.
  - right. reflexivity.
Defined.

(** ** What a request can change *)

Ltac break_match :=
  repeat (match goal with
          | |- context [match ?x with _ => _ end] => destruct x
          end; simpl).

Lemma other_routes_keep_server (route : Route) (env : Env) (server : Server)
    (r : Request) :
  route <> ControlPush -> route <> ControlPull ->
  after (handlerBody route env server r) = server.
Proof.
  intros Hpush Hpull. destruct route; try congruence; simpl.
  - unfold handleGet. break_match; reflexivity.
  - unfold handleReset. break_match; reflexivity.
  - unfold handleDelete. break_match; reflexivity.
  - unfold GetLiveStatics. break_match; reflexivity.
  - unfold GetLiveStat. break_match; reflexivity.
Qed.

Lemma stats_routes_call_nothing (env : Env) (server : Server) (r : Request) :
  calls (GetLiveStatics env server r) = [] /\ calls (GetLiveStat env server r) = [].
Proof.
  split.
  - unfold GetLiveStatics. break_match; reflexivity.
  - unfold GetLiveStat. break_match; reflexivity.
Qed.

Lemma Serve_cases (apiKey : string) (env : Env) (route : Route) (server : Server)
    (r : Request) :
  Serve apiKey env route server r = handlerBody route env server r \/
  after (Serve apiKey env route server r) = server /\
  calls (Serve apiKey env route server r) = [].
Proof.
  unfold Serve, JWTMiddleware, mux, gated.
  destruct (negb _); [| destruct (jwt_CheckJWT env _ _ r); [right; split; reflexivity |]];
    (destruct (checkAuth apiKey r); [right; split; reflexivity | left; reflexivity]).
Qed.

Lemma Serve_frame :
  forall (apiKey : string) (env : Env) (route : Route) (server : Server) (r : Request),
    let run := Serve apiKey env route server r in
    handler (after run) = handler server /\
    rtmpAddr (after run) = rtmpAddr server /\
    (route <> ControlPush -> route <> ControlPull -> after run = server) /\
    (route = StatsLivestats \/ route = StatsLivestat -> calls run = []).
Proof.
  intros apiKey env route server r. cbv zeta.
  destruct (Serve_cases apiKey env route server r) as [Hrun | [Hafter Hcalls]].
  - rewrite Hrun.
    assert (Hkeep : handler (after (handlerBody route env server r)) = handler server /\
                    rtmpAddr (after (handlerBody route env server r)) = rtmpAddr server).
    { destruct route;
        try (rewrite other_routes_keep_server by discriminate; split; reflexivity).
      - destruct (handlers_frame env server r "") as ((Hh & Ha & _) & _).
        split; assumption.
      - destruct (handlers_frame env server r "") as (_ & (Hh & Ha & _)).
        split; assumption. }
    destruct Hkeep as [Hh Ha].
    split; [exact Hh | split; [exact Ha | split]].
    + apply other_routes_keep_server.
    + intros [-> | ->]; simpl; apply (stats_routes_call_nothing env server r).
  - rewrite Hafter, Hcalls. repeat split.
Qed.

(** X12. Whatever the route, the key, the token and the request, the
    server keeps its handler and its RTMP address; only the push and pull
    routes can change the server at all, and the two stats routes call no
    collaborator. *)
Theorem only_relay_routes_change_the_server :
  forall (apiKey : string) (env : Env) (route : Route) (server : Server) (r : Request),
    let run := Serve apiKey env route server r in
    handler (after run) = handler server /\
    rtmpAddr (after run) = rtmpAddr server /\
    (route <> ControlPush -> route <> ControlPull -> after run = server) /\
    (route = StatsLivestats \/ route = StatsLivestat -> calls run = []).
Proof. exact Serve_frame. Qed.

(** ** One room and all rooms *)

(** X13. [GetLiveStat] and [GetLiveStatics] agree: on the same server, the
    entry that [GetLiveStat] returns with status 200 for a room is the
    [publishers] entry of [GetLiveStatics] with the key ["live/<room>"],
    and there is such an entry only when [GetLiveStat] returns it. *)
Theorem GetLiveStat_agrees_with_GetLiveStatics :
  forall (env env' : Env) (server : Server) (req req' : Request) (rs : RtmpStream)
    (room : string) (m : stream),
    handler server = HandlerRtmpStream (Some rs) ->
    ParseForm req = None ->
    Form_Get req "room" = room ->
    (reply (GetLiveStat env server req) = Sent {| Status := 200; Data := Stat m |} <->
     exists msgs,
       reply (GetLiveStatics env' server req') = Sent {| Status := 200; Data := Stats msgs |} /\
       m ∈ Publishers msgs /\ Key m = "live/" +:+ room).
Proof.
  intros env env' server req req' rs room m Hh Hp Hroom.
  rewrite (GetLiveStatics_snapshot env' server req' rs Hh).
  unfold GetLiveStat, GetStream. rewrite Hh, Hp, Hroom. simpl.
  split.
  - intros Hrun. eexists. split; [reflexivity |]. simpl.
    destruct (GetStreams rs !! ("live/" +:+ room)) as [s|] eqn:Hs; [| discriminate].
    destruct (GetReader s) as [|v|] eqn:Hr; try discriminate.
    simpl in Hrun. injection Hrun as <-.
    split; [| reflexivity].
    apply elem_of_publishers. eauto 6.
  - intros (msgs & Hmsgs & Hin & Hkey).
    injection Hmsgs as <-. simpl in Hin.
    apply elem_of_publishers in Hin as (key & s & v & Hs & Hr & ->).
    simpl in Hkey. subst key. rewrite Hs, Hr. reflexivity.
Qed.

Lemma GetLiveStat_agrees_with_GetLiveStatics_witness :
  exists msgs,
    reply (GetLiveStatics envFail statsServer (roomRequest "")) =
      Sent {| Status := 200; Data := Stats msgs |} /\
    readerStat "live/room1" virReader1 ∈ Publishers msgs /\
    Key (readerStat "live/room1" virReader1) = "live/room1".
Proof.
  apply (GetLiveStat_agrees_with_GetLiveStatics envOk envFail statsServer
           (roomRequest "room1") (roomRequest "") rtmpStream1 "room1"
           (readerStat "live/room1" virReader1) eq_refl eq_refl eq_refl).
  reflexivity.
Defined.

Lemma publisher_keys_sublist (l : list (string * Stream)) :
  sublist (Key <$> omap publisherOf l) (l.*1).
Proof.
  induction l as [|[key s] l IH]; simpl; [constructor |].
  unfold publisherOf at 1. simpl.
  destruct (GetReader s); simpl.
  - apply sublist_cons. exact IH.
  - apply sublist_skip. exact IH.
  - apply sublist_cons. exact IH.
Qed.

(** X14. In the snapshot of [GetLiveStatics] no two [publishers] entries
    have the same key, and there are at most as many as streams in the
    registry. *)
Theorem publishers_have_distinct_keys :
  forall (env : Env) (server : Server) (req : Request) (rs : RtmpStream),
    handler server = HandlerRtmpStream (Some rs) ->
    exists msgs : streams,
      reply (GetLiveStatics env server req) = Sent {| Status := 200; Data := Stats msgs |} /\
      NoDup (Key <$> Publishers msgs) /\
      (length (Publishers msgs) <= size (GetStreams rs))%nat.
Proof.
  intros env server req rs Hh.
  rewrite (GetLiveStatics_snapshot env server req rs Hh).
  eexists. split; [reflexivity |]. simpl.
  pose proof (publisher_keys_sublist (map_to_list (GetStreams rs))) as Hsub.
  split.
  - exact (sublist_NoDup _ _ (NoDup_fst_map_to_list _) Hsub).
  - apply sublist_length in Hsub.
    rewrite !length_fmap, length_map_to_list in Hsub. exact Hsub.
Qed.

Lemma publishers_have_distinct_keys_witness :
  exists msgs : streams,
    reply (GetLiveStatics envOk statsServer (roomRequest "")) =
      Sent {| Status := 200; Data := Stats msgs |} /\
    NoDup (Key <$> Publishers msgs) /\
    (length (Publishers msgs) <= size (GetStreams rtmpStream1))%nat.
Proof.
  apply (publishers_have_distinct_keys envOk statsServer (roomRequest "") rtmpStream1).
  reflexivity.
Defined.

(** ** An invariant of the registry *)

Lemma handlePush_consistent (env : Env) (server : Server) (req : Request) :
  consistent server -> consistent (after (handlePush env server req)).
Proof.
  intros Hc. unfold handlePush.
  destruct (ParseForm req); simpl; [exact Hc |].
  destruct (_ || _ || _); simpl; [exact Hc |].
  destruct (String.eqb _ _); simpl.
  - destruct (session server !! _) eqn:Hs; simpl; [| exact Hc].
    intros key relay Hk. simpl in *.
    apply lookup_delete_Some in Hk as [_ Hk]. apply Hc. exact Hk.
  - destruct (Start env _); simpl; [exact Hc |].
    intros key relay Hk. simpl in *.
    apply lookup_insert_Some in Hk as [[<- <-] | [_ Hk]]; [| apply Hc; exact Hk].
    left. eexists. split; reflexivity.
Qed.

Lemma handlePull_consistent (env : Env) (server : Server) (req : Request) :
  consistent server -> consistent (after (handlePull env server req)).
Proof.
  intros Hc. unfold handlePull.
  destruct (ParseForm req); simpl; [exact Hc |].
  destruct (_ || _ || _); simpl; [exact Hc |].
  destruct (String.eqb _ _); simpl.
  - destruct (session server !! _) eqn:Hs; simpl; [| exact Hc].
    intros key relay Hk. simpl in *.
    apply lookup_delete_Some in Hk as [_ Hk]. apply Hc. exact Hk.
  - destruct (Start env _); simpl; [exact Hc |].
    intros key relay Hk. simpl in *.
    apply lookup_insert_Some in Hk as [[<- <-] | [_ Hk]]; [| apply Hc; exact Hk].
    right. eexists. split; reflexivity.
Qed.

Lemma Serve_consistent (apiKey : string) (env : Env) (route : Route)
    (server : Server) (r : Request) :
  consistent server -> consistent (after (Serve apiKey env route server r)).
Proof.
  intros Hc.
  destruct (Serve_cases apiKey env route server r) as [Hrun | [Hafter _]].
  - rewrite Hrun. destruct route;
      try (rewrite other_routes_keep_server by discriminate; exact Hc).
    + apply handlePush_consistent. exact Hc.
    + apply handlePull_consistent. exact Hc.
  - rewrite Hafter. exact Hc.
Qed.

Lemma serveAll_consistent (apiKey : string) (reqs : list (Env * Route * Request)) :
  forall server,
    consistent server ->
    consistent (serveAll apiKey server reqs) /\
    handler (serveAll apiKey server reqs) = handler server /\
    rtmpAddr (serveAll apiKey server reqs) = rtmpAddr server.
Proof.
  induction reqs as [|[[env route] r] reqs IH]; intros server Hc; simpl.
  - auto.
  - destruct (IH (after (Serve apiKey env route server r))
                 (Serve_consistent apiKey env route server r Hc)) as (Hc' & Hh & Ha).
    destruct (Serve_frame apiKey env route server r)
      as (Hh' & Ha' & _).
    unfold serveAll in *. simpl. split; [exact Hc' | split; congruence].
Qed.

(** X15. From [NewServer] on, whatever requests are served on whatever
    routes and whatever the collaborators answer, the server keeps its
    handler and RTMP address, and every entry of its registry agrees with
    its key: a key ["push:<path>"] holds a relay whose source is the local
    URL ["rtmp://127.0.0.1<rtmpAddr>/<path>"], a key ["pull:<path>"] a
    relay whose target is that URL, and there are no other keys. *)
Theorem registry_entries_agree_with_their_keys :
  forall (apiKey : string) (h : Handler) (addr : string)
    (reqs : list (Env * Route * Request)),
    let server := serveAll apiKey (NewServer h addr) reqs in
    handler server = h /\
    rtmpAddr server = addr /\
    (forall key relay, session server !! key = Some relay ->
       (exists path, key = "push:" +:+ path /\
          PlayUrl relay = "rtmp://127.0.0.1" +:+ addr +:+ "/" +:+ path) \/
       (exists path, key = "pull:" +:+ path /\
          PublishUrl relay = "rtmp://127.0.0.1" +:+ addr +:+ "/" +:+ path)).
Proof.
  intros apiKey h addr reqs. cbv zeta.
  destruct (serveAll_consistent apiKey reqs (NewServer h addr)) as (Hc & Hh & Ha).
  - intros key relay Hk. simpl in Hk. rewrite lookup_empty in Hk. discriminate.
  - split; [exact Hh | split; [exact Ha |]].
    intros key relay Hk. specialize (Hc key relay Hk).
    rewrite Ha in Hc. exact Hc.
Qed.

(** ** Answers and panics *)

